(** * apollo-io-mcp: the tool adapter of [src/index.ts]

    A shallow embedding of the request/response mapping layer of the
    Apollo.io MCP server: the zod input schemas, the [ApolloClient]
    request shapes, the [CallToolRequestSchema] handler with its
    per-tool summaries, and the [catch] block that maps failures to
    [McpError]s.

    JavaScript values are untyped here as they are at run time: the
    handler reads properties of [any]-typed payloads, tests them for
    truthiness and interpolates them into template literals, and the
    embedding keeps those three operations explicit. *)

From Stdlib Require Import String Ascii List Bool ZArith QArith Lia DecimalString.
Import ListNotations.
Local Open Scope list_scope.
Local Open Scope string_scope.

(** ** JavaScript values *)

(** The values that flow through the adapter: what [JSON.parse] produces
    (numbers are the finite numbers a JSON text denotes), plus
    [undefined], which object literals of the handler hold for fields a
    payload does not have.  An object is the list of its own properties
    in enumeration order; a string is its sequence of code units. *)
#[local] Unset Elimination Schemes.
Inductive value : Type :=
| VUndefined
| VNull
| VBool (b : bool)
| VNumber (q : Q)
| VString (s : string)
| VArray (items : list value)
| VObject (props : list (string * value)).
#[local] Set Elimination Schemes.

Module JS.

(** Characters that string literals cannot spell directly. *)
Definition nl : string := String (ascii_of_nat 10) EmptyString.
Definition dquote : string := String (ascii_of_nat 34) EmptyString.

(** [ToBoolean]: what [if (v)], [!v], [a && b] and [a || b] test. *)
Definition truthy (v : value) : bool :=
  match v with
  | VUndefined | VNull => false
  | VBool b => b
  | VNumber q => negb (Qnum q =? 0)%Z
  | VString s => negb (s =? "")
  | VArray _ | VObject _ => true
  end.

(** [v == null]: the values on which a property read throws and on
    which [?.] short-circuits. *)
Definition nullish (v : value) : bool :=
  match v with
  | VUndefined | VNull => true
  | _ => false
  end.

(** [a || b] and [a && b] on values. *)
Definition or_else (a b : value) : value := if truthy a then a else b.
Definition and_then (a b : value) : value := if truthy a then b else a.

Fixpoint lookup (k : string) (props : list (string * value)) : option value :=
  match props with
  | [] => None
  | (k', v) :: rest => if k' =? k then Some v else lookup k rest
  end.

Definition has_key (k : string) (v : value) : bool :=
  match v with
  | VObject props => match lookup k props with Some _ => true | None => false end
  | _ => false
  end.

(** [o.k] for a data field name [k] on a value that is not nullish.
    Every name the adapter reads ([name], [city], [people], ...) is a
    plain data field: none is a member of a built-in prototype, so on
    a string, number, boolean or array the read gives [undefined]. *)
Definition prop (o : value) (k : string) : value :=
  match o with
  | VObject props => match lookup k props with Some v => v | None => VUndefined end
  | _ => VUndefined
  end.

(** [o?.k] *)
Definition opt_prop (o : value) (k : string) : value :=
  if nullish o then VUndefined else prop o k.

(** [o?.[0]] *)
Definition opt_index0 (o : value) : value :=
  match o with
  | VArray items => nth 0 items VUndefined
  | VString s => match s with
                 | EmptyString => VUndefined
                 | String c _ => VString (String c EmptyString)
                 end
  | VObject _ => prop o "0"
  | _ => VUndefined
  end.

(** [o.k = v]: overwrite in place, or append a new own property. *)
Fixpoint assign (k : string) (v : value) (props : list (string * value))
  : list (string * value) :=
  match props with
  | [] => [(k, v)]
  | (k', v') :: rest =>
      if k' =? k then (k, v) :: rest else (k', v') :: assign k v rest
  end.

Definition set_prop (o : value) (k : string) (v : value) : value :=
  match o with
  | VObject props => VObject (assign k v props)
  | _ => o
  end.

(** [Array.prototype.join]: [sep]-separated, left to right. *)
Fixpoint join (sep : string) (parts : list string) : string :=
  match parts with
  | [] => ""
  | [p] => p
  | p :: rest => p ++ sep ++ join sep rest
  end.

Definition of_nat (n : nat) : value := VNumber (inject_Z (Z.of_nat n)).

End JS.

(** ** Zod schemas *)

(** The fragment of zod the adapter uses: [z.string()], [z.number()],
    [z.array(..)], [.optional()], [.default(..)] and [z.object({..})]
    ([.describe(..)] only attaches documentation). *)
Module Zod.

#[local] Unset Elimination Schemes.
Inductive ZodSchema : Type :=
| ZString
| ZNumber
| ZArray (element : ZodSchema)
| ZOptional (inner : ZodSchema)
| ZDefault (inner : ZodSchema) (default_value : value)
| ZObject (shape : list (string * ZodSchema)).
#[local] Set Elimination Schemes.

(** An entry of [ZodError.errors]; the handler reads only [message]. *)
Record ZodIssue : Type := { message : string }.

Inductive ParseResult : Type :=
| Valid (output : value)
| Invalid (issues : list ZodIssue).

Definition is_valid (r : ParseResult) : bool :=
  match r with Valid _ => true | Invalid _ => false end.

Definition issues_of (r : ParseResult) : list ZodIssue :=
  match r with Valid _ => [] | Invalid issues => issues end.

Definition output_of (r : ParseResult) : value :=
  match r with Valid v => v | Invalid _ => VUndefined end.

(** zod's name for the run-time type of the value it received. *)
Definition parsed_type (v : value) : string :=
  match v with
  | VUndefined => "undefined"
  | VNull => "null"
  | VBool _ => "boolean"
  | VNumber _ => "number"
  | VString _ => "string"
  | VArray _ => "array"
  | VObject _ => "object"
  end.

(** The [invalid_type] issue with zod's default message. *)
Definition invalid_type (expected : string) (received : value) : ParseResult :=
  Invalid [ {| message :=
                match received with
                | VUndefined => "Required"
                | _ => "Expected " ++ expected ++ ", received " ++ parsed_type received
                end |} ].

(** An array is valid when every element is; issues keep element order. *)
Definition merge_array (results : list ParseResult) : ParseResult :=
  if forallb is_valid results
  then Valid (VArray (map output_of results))
  else Invalid (flat_map issues_of results).

(** An object is valid when every declared key is; issues keep the
    order in which the shape declares the keys.  A key is written to the
    output when its parsed value is defined or the input has the key;
    keys outside the shape are dropped. *)
(** Whether [z.object] writes a parsed key to its output. *)
Definition output_entry (key : string) (alwaysSet : bool) (v : value)
  : list (string * value) :=
  match v with
  | VUndefined => if alwaysSet then [(key, VUndefined)] else []
  | _ => [(key, v)]
  end.

Definition merge_object (pairs : list (string * bool * ParseResult)) : ParseResult :=
  if forallb (fun p => is_valid (snd p)) pairs
  then Valid (VObject
         (flat_map (fun p : string * bool * ParseResult =>
            output_entry (fst (fst p)) (snd (fst p)) (output_of (snd p))) pairs))
  else Invalid (flat_map (fun p => issues_of (snd p)) pairs).

Fixpoint parse (schema : ZodSchema) (data : value) {struct schema} : ParseResult :=
  match schema with
  | ZString =>
      match data with VString _ => Valid data | _ => invalid_type "string" data end
  | ZNumber =>
      match data with VNumber _ => Valid data | _ => invalid_type "number" data end
  | ZArray element =>
      match data with
      | VArray items => merge_array (map (parse element) items)
      | _ => invalid_type "array" data
      end
  | ZOptional inner =>
      match data with VUndefined => Valid VUndefined | _ => parse inner data end
  | ZDefault inner default_value =>
      parse inner (match data with VUndefined => default_value | _ => data end)
  | ZObject shape =>
      match data with
      | VObject _ =>
          merge_object
            (map (fun entry =>
                    match entry with
                    | (key, s) => (key, JS.has_key key data, parse s (JS.prop data key))
                    end) shape)
      | _ => invalid_type "object" data
      end
  end.

End Zod.

(** ** The input schemas of [index.ts] *)

Import Zod.

Definition SearchPeopleSchema : ZodSchema :=
  ZObject
    [ ("keywords", ZOptional ZString);
      ("titles", ZOptional (ZArray ZString));
      ("locations", ZOptional (ZArray ZString));
      ("organization_ids", ZOptional (ZArray ZString));
      ("page", ZDefault (ZOptional ZNumber) (VNumber 1));
      ("per_page", ZDefault (ZOptional ZNumber) (VNumber 10)) ].

Definition EnrichPersonSchema : ZodSchema :=
  ZObject
    [ ("first_name", ZOptional ZString);
      ("last_name", ZOptional ZString);
      ("email", ZOptional ZString);
      ("domain", ZOptional ZString);
      ("organization_name", ZOptional ZString) ].

Definition EnrichOrganizationSchema : ZodSchema :=
  ZObject [ ("domain", ZString) ].

Definition SearchOrganizationsSchema : ZodSchema :=
  ZObject
    [ ("keywords", ZOptional ZString);
      ("locations", ZOptional (ZArray ZString));
      ("employee_ranges", ZOptional (ZArray ZString));
      ("page", ZDefault (ZOptional ZNumber) (VNumber 1));
      ("per_page", ZDefault (ZOptional ZNumber) (VNumber 10)) ].

Definition SearchSequencesSchema : ZodSchema :=
  ZObject
    [ ("name", ZOptional ZString);
      ("page", ZDefault (ZOptional ZNumber) (VNumber 1));
      ("per_page", ZDefault (ZOptional ZNumber) (VNumber 25)) ].

Definition GetEmailMessageActivitiesSchema : ZodSchema :=
  ZObject [ ("message_id", ZString) ].

(** ** Errors and completions *)

(** The error codes of the protocol SDK that the handler uses. *)
Inductive ErrorCode : Type :=
| InvalidRequest
| MethodNotFound
| InvalidParams
| InternalError.

(** [new McpError(code, message)]: the arguments the adapter passes. *)
Record McpError : Type := { code : ErrorCode; message : string }.

(** What can be thrown inside the handler's [try]: a [ZodError] from
    [parse], the [McpError] of the [default] case, an error out of the
    HTTP call (with [error.response?.status] when a response came back),
    and the [TypeError] of reading a property of [null]/[undefined] or
    of calling what is not a function. *)
Inductive exn : Type :=
| ZodError (errors : list ZodIssue)
| McpErrorThrown (e : McpError)
| RequestError (response_status : option Z) (error_message : string)
| TypeError (error_message : string).

Inductive completion (A : Type) : Type :=
| Normal (a : A)
| Throw (e : exn).
Arguments Normal {A} a.
Arguments Throw {A} e.

Definition bind {A B : Type} (c : completion A) (k : A -> completion B)
  : completion B :=
  match c with
  | Normal a => k a
  | Throw e => Throw e
  end.

Notation "x <- c ;; k" := (bind c (fun x => k))
  (at level 61, c at next level, right associativity).

(** [Schema.parse(args)]: the parsed value, or a thrown [ZodError]. *)
Definition parse_or_throw (schema : ZodSchema) (args : value) : completion value :=
  match parse schema args with
  | Valid v => Normal v
  | Invalid issues => Throw (ZodError issues)
  end.

(** [o.k] where [o] may be [null] or [undefined] (V8's wording). *)
Definition read (o : value) (k : string) : completion value :=
  match o with
  | VUndefined =>
      Throw (TypeError ("Cannot read properties of undefined (reading '" ++ k ++ "')"))
  | VNull =>
      Throw (TypeError ("Cannot read properties of null (reading '" ++ k ++ "')"))
  | _ => Normal (JS.prop o k)
  end.

Definition not_a_function (callee : string) : exn :=
  TypeError (callee ++ " is not a function").

(** [xs.map(f)] and [xs.filter(f)] on the elements of an array, left to
    right, stopping at the first callback that throws. *)
Fixpoint map_each (f : value -> completion value) (items : list value)
  : completion (list value) :=
  match items with
  | [] => Normal []
  | x :: rest =>
      y <- f x ;;
      ys <- map_each f rest ;;
      Normal (y :: ys)
  end.

Fixpoint filter_each (f : value -> completion bool) (items : list value)
  : completion (list value) :=
  match items with
  | [] => Normal []
  | x :: rest =>
      keep <- f x ;;
      ys <- filter_each f rest ;;
      Normal (if keep then x :: ys else ys)
  end.

(** [recv.map(f)]: only an array has [map]. *)
Definition call_map (callee : string) (recv : value) (f : value -> completion value)
  : completion value :=
  match recv with
  | VArray items => ys <- map_each f items ;; Normal (VArray ys)
  | _ => Throw (not_a_function callee)
  end.

(** [recv.slice(0, n)]: arrays and strings have [slice]. *)
Definition call_slice (callee : string) (recv : value) (n : nat) : completion value :=
  match recv with
  | VArray items => Normal (VArray (firstn n items))
  | VString s => Normal (VString (substring 0 n s))
  | _ => Throw (not_a_function callee)
  end.

(** [xs.slice(0, 5).map(row)], the reduction both searches apply. *)
Definition top_rows (xs : string) (list : value) (row : value -> completion value)
  : completion value :=
  top <- call_slice (xs ++ ".slice") list 5 ;;
  call_map (xs ++ ".slice(...).map") top row.

(** ** The HTTP boundary *)

Inductive Method : Type := GET | POST.

(** A call on the axios instance: [api.post(url, data)] or [api.get(url)]
    (no body: [data] is [undefined]). *)
Record Request : Type := { method : Method; url : string; data : value }.

(** ** Tool results *)

Record TextContent : Type := { type : string; text : string }.
Record CallToolResult : Type := { content : list TextContent }.

Definition text_result (t : string) : CallToolResult :=
  {| content := [ {| type := "text"; text := t |} ] |}.

(** ** String conversions *)

(** [QuoteJSONString]: the quoted form of a string inside JSON text. *)
Definition hex_digit (n : nat) : string := substring n 1 "0123456789abcdef".

Definition quote_char (c : ascii) : string :=
  let n := nat_of_ascii c in
  if (n =? 34)%nat then "\" ++ JS.dquote
  else if (n =? 92)%nat then "\\"
  else if (n =? 8)%nat then "\b"
  else if (n =? 9)%nat then "\t"
  else if (n =? 10)%nat then "\n"
  else if (n =? 12)%nat then "\f"
  else if (n =? 13)%nat then "\r"
  else if (n <? 32)%nat then "\u00" ++ hex_digit (n / 16) ++ hex_digit (n mod 16)
  else String c EmptyString.

Fixpoint quote_chars (s : string) : string :=
  match s with
  | EmptyString => ""
  | String c rest => quote_char c ++ quote_chars rest
  end.

Definition quote (s : string) : string := JS.dquote ++ quote_chars s ++ JS.dquote.

(** ** The tool catalog *)

(** What the [ListToolsRequestSchema] handler returns: the tools in
    their fixed order, each with the JSON schema it advertises for its
    arguments. *)
Module Catalog.

Record ToolDefinition : Type :=
  { name : string; description : string; inputSchema : value }.

Definition string_property (description : string) : value :=
  VObject [ ("type", VString "string"); ("description", VString description) ].

Definition strings_property (description : string) : value :=
  VObject [ ("type", VString "array");
            ("items", VObject [("type", VString "string")]);
            ("description", VString description) ].

Definition number_property (description : string) (default : Q) : value :=
  VObject [ ("type", VString "number");
            ("description", VString description);
            ("default", VNumber default) ].

Definition ListTools : list ToolDefinition :=
  [ {| name := "apollo_search_people";
       description := "Search for people/prospects in Apollo's B2B database. Filter by job titles, locations, companies, etc.";
       inputSchema :=
         VObject
           [ ("type", VString "object");
             ("properties", VObject
                [ ("keywords",
                    string_property "Keywords to search for (job title, company, etc)");
                  ("titles", strings_property "Array of job titles to filter by");
                  ("locations", strings_property "Array of locations to filter by");
                  ("organization_ids",
                    strings_property "Array of organization IDs to filter by");
                  ("page", number_property "Page number for pagination" 1);
                  ("per_page", number_property "Results per page (max 100)" 10) ]) ] |};
    {| name := "apollo_enrich_person";
       description := "Enrich a person's data with Apollo's B2B intelligence. Provide email, name, or company info.";
       inputSchema :=
         VObject
           [ ("type", VString "object");
             ("properties", VObject
                [ ("first_name", string_property "Person's first name");
                  ("last_name", string_property "Person's last name");
                  ("email", string_property "Person's email address");
                  ("domain", string_property "Company domain (e.g., apollo.io)");
                  ("organization_name", string_property "Company name") ]) ] |};
    {| name := "apollo_enrich_organization";
       description := "Enrich a company's data with Apollo's B2B intelligence using their domain.";
       inputSchema :=
         VObject
           [ ("type", VString "object");
             ("properties", VObject
                [ ("domain", string_property "Company domain (e.g., apollo.io)") ]);
             ("required", VArray [VString "domain"]) ] |};
    {| name := "apollo_search_organizations";
       description := "Search for companies/organizations in Apollo's B2B database. Filter by location, size, keywords, etc.";
       inputSchema :=
         VObject
           [ ("type", VString "object");
             ("properties", VObject
                [ ("keywords", string_property "Keywords to search for");
                  ("locations", strings_property "Array of locations to filter by");
                  ("employee_ranges",
                    strings_property "Employee count ranges (e.g., ['1-10', '11-50'])");
                  ("page", number_property "Page number for pagination" 1);
                  ("per_page", number_property "Results per page (max 100)" 10) ]) ] |};
    {| name := "apollo_search_sequences";
       description := "Search for email sequences in your Apollo account. Returns sequence stats including sent, bounced, replied counts. Requires master API key.";
       inputSchema :=
         VObject
           [ ("type", VString "object");
             ("properties", VObject
                [ ("name", string_property "Sequence name to filter by");
                  ("page", number_property "Page number for pagination" 1);
                  ("per_page", number_property "Results per page" 25) ]) ] |};
    {| name := "apollo_get_email_accounts";
       description := "Get list of email accounts connected to your Apollo account. Requires master API key.";
       inputSchema :=
         VObject [ ("type", VString "object"); ("properties", VObject []) ] |};
    {| name := "apollo_get_email_message_activities";
       description := "Get activities (opens, clicks, replies) for a specific email message sent via sequence. Requires master API key.";
       inputSchema :=
         VObject
           [ ("type", VString "object");
             ("properties", VObject
                [ ("message_id",
                    string_property "The emailer message ID to get activities for") ]);
             ("required", VArray [VString "message_id"]) ] |} ].

End Catalog.

(** The schema each [case] of the handler's [switch] parses its
    arguments with; [apollo_get_email_accounts] parses nothing. *)
Definition tool_schemas : list (string * option ZodSchema) :=
  [ ("apollo_search_people", Some SearchPeopleSchema);
    ("apollo_enrich_person", Some EnrichPersonSchema);
    ("apollo_enrich_organization", Some EnrichOrganizationSchema);
    ("apollo_search_organizations", Some SearchOrganizationsSchema);
    ("apollo_search_sequences", Some SearchSequencesSchema);
    ("apollo_get_email_accounts", None);
    ("apollo_get_email_message_activities", Some GetEmailMessageActivitiesSchema) ].

(** The JSON-schema keywords that describe what a zod schema accepts:
    its type, the type of its items, its default. *)
Fixpoint advertised (schema : ZodSchema) : list (string * value) :=
  match schema with
  | ZString => [("type", VString "string")]
  | ZNumber => [("type", VString "number")]
  | ZArray element =>
      [("type", VString "array"); ("items", VObject (advertised element))]
  | ZOptional inner => advertised inner
  | ZDefault inner default_value => (advertised inner ++ [("default", default_value)])%list
  | ZObject shape =>
      [ ("type", VString "object");
        ("properties",
          VObject (map (fun entry => match entry with
                                     | (key, s) => (key, VObject (advertised s))
                                     end) shape)) ]
  end.

(** A key that [z.object] insists on: neither [.optional()] nor
    [.default(..)]. *)
Definition is_required (schema : ZodSchema) : bool :=
  match schema with
  | ZOptional _ | ZDefault _ _ => false
  | _ => true
  end.

(** The input schema that corresponds to a handler's validator: the
    advertised keywords, and [required] when some key is. *)
Definition advertised_input (schema : option ZodSchema) : value :=
  match schema with
  | None => VObject [ ("type", VString "object"); ("properties", VObject []) ]
  | Some s =>
      match map (fun entry : string * ZodSchema => VString (fst entry))
                (filter (fun entry : string * ZodSchema => is_required (snd entry))
                        (match s with ZObject shape => shape | _ => [] end)) with
      | [] => VObject (advertised s)
      | required => VObject (advertised s ++ [("required", VArray required)])%list
      end
  end.

(** An input schema without the [description] of each property. *)
Definition without_descriptions (inputSchema : value) : value :=
  match inputSchema with
  | VObject keywords =>
      VObject
        (map (fun keyword : string * value =>
                match keyword with
                | (k, VObject properties) =>
                    if k =? "properties"
                    then (k, VObject
                               (map (fun property : string * value =>
                                       match property with
                                       | (p, VObject ks) =>
                                           (p, VObject
                                                 (filter (fun kv : string * value =>
                                                            negb (fst kv =? "description"))
                                                         ks))
                                       | other => other
                                       end) properties))
                    else (k, VObject properties)
                | other => other
                end) keywords)
  | other => other
  end.

(** ** A concrete runtime

    The adapter below is parametric in the two pieces of its runtime
    that [index.ts] does not define.  These instances run it on sample
    payloads. *)

Definition integer_text (z : Z) : string := NilZero.string_of_int (Z.to_int z).

Fixpoint fraction_digits (fuel : nat) (r d : Z) : string :=
  match fuel with
  | O => ""
  | S fuel' =>
      if (r =? 0)%Z then ""
      else integer_text (r * 10 / d) ++ fraction_digits fuel' ((r * 10) mod d) d
  end.

(** The decimal expansion of a number: its integer part, and the
    fraction digits when it has any. *)
Definition decimal_text (q : Q) : string :=
  let d := Z.pos (Qden q) in
  let a := Z.abs (Qnum q) in
  (if (Qnum q <? 0)%Z then "-" else "")
  ++ integer_text (a / d)
  ++ (if (a mod d =? 0)%Z then "" else "." ++ fraction_digits 20 (a mod d) d).

(** The numeric values of the SDK's [ErrorCode] members. *)
Definition code_number (c : ErrorCode) : Z :=
  match c with
  | InvalidRequest => -32600
  | MethodNotFound => -32601
  | InvalidParams => -32602
  | InternalError => -32603
  end.

(** The message the SDK's [McpError] constructor hands to [Error]. *)
Definition sdk_message (e : McpError) : string :=
  "MCP error " ++ integer_text (code_number (code e)) ++ ": " ++ message e.

(** A stand-in for the remote API: it answers the one path it expects
    and refuses every other request. *)
Definition mock (path : string) (outcome : completion value)
  : Request -> completion value :=
  fun request =>
    if url request =? path then outcome
    else Throw (RequestError (Some 404%Z) "Request failed with status code 404").

(** Sample payloads, after the fixtures of the repository's tests. *)
Definition john_doe : value :=
  VObject
    [ ("name", VString "John Doe");
      ("title", VString "CTO");
      ("organization", VObject [("name", VString "Test Corp")]);
      ("city", VString "San Francisco");
      ("state", VString "California");
      ("email", VString "john@test.com");
      ("linkedin_url", VString "https://linkedin.com/in/johndoe") ].

Definition people_response : value :=
  VObject
    [ ("people", VArray [john_doe]);
      ("pagination", VObject [("total_entries", VNumber 1)]) ].

Definition person_response : value := VObject [("person", john_doe)].

(** A record whose [city] is there but empty. *)
Definition remote_worker : value :=
  VObject
    [ ("name", VString "Ada");
      ("city", VString "");
      ("state", VString "California");
      ("country", VString "United States") ].

Definition twelve_technologies : list value :=
  map VString
    [ "t01"; "t02"; "t03"; "t04"; "t05"; "t06";
      "t07"; "t08"; "t09"; "t10"; "t11"; "t12" ].

Definition organization_response : value :=
  VObject
    [ ("organization",
        VObject
          [ ("name", VString "Apollo.io");
            ("primary_domain", VString "apollo.io");
            ("current_technologies", VArray twelve_technologies) ]) ].

Definition touch (touch_type : string) : value :=
  VObject [ ("touch_type", VString touch_type);
            ("created_at", VString "2024-01-01T00:00:00Z") ].

Definition four_touches : list value :=
  [ touch "opened"; touch "clicked"; touch "opened"; touch "bounced" ].

(** Six search results of which the last is [null]. *)
Definition six_results : list value :=
  [ john_doe; john_doe; john_doe; john_doe; john_doe; VNull ].

Definition two_sequences : list value :=
  [ VObject [ ("id", VString "s1"); ("name", VString "Outbound");
              ("active", VBool true); ("num_steps", VNumber 3) ];
    VObject [ ("id", VString "s2"); ("name", VString "Nurture");
              ("active", VBool false); ("num_steps", VNumber 1) ] ].

Section Adapter.

(** [Number::toString], the decimal text of a number: the one part of
    the string conversions that the language fixes on floating-point
    digits; the adapter only passes it through. *)
Variable number_to_string : Q -> string.

(** The [message] an [McpError] carries once constructed: the SDK's
    constructor derives it from the code and the message it is given. *)
Variable McpError_message : McpError -> string.

(** The axios instance [this.api] of the client: what a call resolves
    to ([response.data]) or what it throws. *)
Variable api : Request -> completion value.

(** [`${v}`]: [ToString] of a value inside a template literal. *)
Fixpoint to_string (v : value) : string :=
  match v with
  | VUndefined => "undefined"
  | VNull => "null"
  | VBool b => if b then "true" else "false"
  | VNumber q => number_to_string q
  | VString s => s
  | VArray items =>
      JS.join "," (map (fun x => if JS.nullish x then "" else to_string x) items)
  | VObject _ => "[object Object]"
  end.

(** [JSON.stringify(v, null, 2)] at a given current indentation;
    [None] is [undefined] (nothing to serialise). *)
Fixpoint serialize (indent : string) (v : value) : option string :=
  match v with
  | VUndefined => None
  | VNull => Some "null"
  | VBool b => Some (if b then "true" else "false")
  | VNumber q => Some (number_to_string q)
  | VString s => Some (quote s)
  | VArray items =>
      let inner := indent ++ "  " in
      match items with
      | [] => Some "[]"
      | _ =>
          Some ("[" ++ JS.nl ++ inner
                ++ JS.join ("," ++ JS.nl ++ inner)
                     (map (fun x => match serialize inner x with
                                    | Some t => t
                                    | None => "null"
                                    end) items)
                ++ JS.nl ++ indent ++ "]")
      end
  | VObject props =>
      let inner := indent ++ "  " in
      match flat_map (fun kv => match kv with
                                | (k, x) =>
                                    match serialize inner x with
                                    | Some t => [quote k ++ ": " ++ t]
                                    | None => []
                                    end
                                end) props with
      | [] => Some "{}"
      | partial =>
          Some ("{" ++ JS.nl ++ inner
                ++ JS.join ("," ++ JS.nl ++ inner) partial
                ++ JS.nl ++ indent ++ "}")
      end
  end.

(** [`${JSON.stringify(v, null, 2)}`] *)
Definition JSON_stringify (v : value) : string :=
  match serialize "" v with
  | Some t => t
  | None => "undefined"
  end.

(** *** [ApolloClient] *)

Definition searchPeople (params : value) : completion value :=
  api {| method := POST; url := "/mixed_people/search"; data := params |}.

Definition enrichPerson (params : value) : completion value :=
  api {| method := POST; url := "/people/match"; data := params |}.

Definition enrichOrganization (domain : value) : completion value :=
  api {| method := POST; url := "/organizations/enrich";
         data := VObject [("domain", domain)] |}.

Definition searchOrganizations (params : value) : completion value :=
  api {| method := POST; url := "/mixed_companies/search"; data := params |}.

Definition searchSequences (params : value) : completion value :=
  api {| method := POST; url := "/emailer_campaigns/search";
         data := JS.or_else params (VObject []) |}.

Definition getEmailAccounts : completion value :=
  api {| method := GET; url := "/email_accounts"; data := VUndefined |}.

Definition getEmailMessageActivities (messageId : value) : completion value :=
  api {| method := GET;
         url := "/emailer_messages/" ++ to_string messageId ++ "/activities";
         data := VUndefined |}.

(** *** Request parameters *)

(** [if (validated.src) params.dst = validated.src;] *)
Definition copy_if_truthy (validated : value) (src dst : string) (params : value)
  : value :=
  if JS.truthy (JS.prop validated src)
  then JS.set_prop params dst (JS.prop validated src)
  else params.

Definition paged_params (validated : value) : value :=
  VObject [ ("page", JS.prop validated "page");
            ("per_page", JS.prop validated "per_page") ].

Definition search_people_params (validated : value) : value :=
  let params := paged_params validated in
  let params := copy_if_truthy validated "keywords" "q_keywords" params in
  let params := copy_if_truthy validated "titles" "person_titles" params in
  let params := copy_if_truthy validated "locations" "person_locations" params in
  copy_if_truthy validated "organization_ids" "organization_ids" params.

Definition enrich_person_params (validated : value) : value :=
  let params := VObject [] in
  let params := copy_if_truthy validated "first_name" "first_name" params in
  let params := copy_if_truthy validated "last_name" "last_name" params in
  let params := copy_if_truthy validated "email" "email" params in
  let params := copy_if_truthy validated "domain" "domain" params in
  copy_if_truthy validated "organization_name" "organization_name" params.

Definition search_organizations_params (validated : value) : value :=
  let params := paged_params validated in
  let params := copy_if_truthy validated "keywords" "q_keywords" params in
  let params := copy_if_truthy validated "locations" "organization_locations" params in
  copy_if_truthy validated "employee_ranges" "organization_num_employees_ranges" params.

Definition search_sequences_params (validated : value) : value :=
  let params := paged_params validated in
  copy_if_truthy validated "name" "name" params.

(** *** Summaries *)

(** [x.city && x.state ? `${x.city}, ${x.state}` : x.country], the
    expression every person and organization summary uses. *)
Definition location_of (x : value) : value :=
  if JS.truthy (JS.and_then (JS.prop x "city") (JS.prop x "state"))
  then VString (to_string (JS.prop x "city") ++ ", " ++ to_string (JS.prop x "state"))
  else JS.prop x "country".

(** The callbacks below read their first property with [read]: once
    that read has not thrown, the element is neither [null] nor
    [undefined] and the remaining reads cannot throw. *)

Definition person_row (p : value) : completion value :=
  name <- read p "name" ;;
  Normal (VObject
    [ ("name", name);
      ("title", JS.prop p "title");
      ("company", JS.opt_prop (JS.prop p "organization") "name");
      ("location", location_of p);
      ("email", JS.prop p "email");
      ("linkedin", JS.prop p "linkedin_url") ]).

Definition person_summary (person : value) : value :=
  VObject
    [ ("name", JS.prop person "name");
      ("title", JS.prop person "title");
      ("company", JS.opt_prop (JS.prop person "organization") "name");
      ("email", JS.prop person "email");
      ("phone",
        JS.opt_prop (JS.opt_index0 (JS.prop person "phone_numbers")) "sanitized_number");
      ("linkedin", JS.prop person "linkedin_url");
      ("location", location_of person) ].

(** [org.current_technologies?.slice(0, 10)] *)
Definition technologies_of (org : value) : completion value :=
  let technologies := JS.prop org "current_technologies" in
  if JS.nullish technologies then Normal VUndefined
  else call_slice "org.current_technologies?.slice" technologies 10.

Definition organization_summary (org : value) : completion value :=
  technologies <- technologies_of org ;;
  Normal (VObject
    [ ("name", JS.prop org "name");
      ("domain", JS.prop org "primary_domain");
      ("industry", JS.prop org "industry");
      ("employees", JS.prop org "estimated_num_employees");
      ("location", location_of org);
      ("description", JS.prop org "short_description");
      ("founded", JS.prop org "founded_year");
      ("linkedin", JS.prop org "linkedin_url");
      ("technologies", technologies) ]).

Definition organization_row (o : value) : completion value :=
  name <- read o "name" ;;
  Normal (VObject
    [ ("name", name);
      ("domain", JS.prop o "primary_domain");
      ("industry", JS.prop o "industry");
      ("employees", JS.prop o "estimated_num_employees");
      ("location", location_of o) ]).

Definition sequence_row (s : value) : completion value :=
  id <- read s "id" ;;
  Normal (VObject
    [ ("id", id);
      ("name", JS.prop s "name");
      ("active", JS.prop s "active");
      ("num_steps", JS.prop s "num_steps");
      ("stats", VObject
         [ ("sent", JS.prop s "num_contacted_people");
           ("bounced", JS.prop s "num_bounced_people");
           ("replied", JS.prop s "num_replied_people");
           ("interested", JS.prop s "num_interested_people");
           ("opt_out", JS.prop s "num_opt_out_people") ]) ]).

Definition account_row (a : value) : completion value :=
  id <- read a "id" ;;
  Normal (VObject
    [ ("id", id);
      ("email", JS.prop a "email");
      ("active", JS.prop a "active");
      ("type", JS.prop a "type") ]).

(** [a.touch_type === t] *)
Definition touch_type_is (t : string) (a : value) : completion bool :=
  touch_type <- read a "touch_type" ;;
  Normal (match touch_type with
          | VString s => s =? t
          | _ => false
          end).

Definition activity_row (a : value) : completion value :=
  touch_type <- read a "touch_type" ;;
  Normal (VObject
    [ ("type", touch_type);
      ("created_at", JS.prop a "created_at");
      ("user_agent", JS.prop a "user_agent") ]).

(** The aggregate of [apollo_get_email_message_activities]; only an
    array has [filter]. *)
Definition activities_summary (message_id : value) (activities : value)
  : completion value :=
  match activities with
  | VArray items =>
      opened <- filter_each (touch_type_is "opened") items ;;
      clicked <- filter_each (touch_type_is "clicked") items ;;
      replied <- filter_each (touch_type_is "replied") items ;;
      rows <- map_each activity_row items ;;
      Normal (VObject
        [ ("message_id", message_id);
          ("total_activities", JS.of_nat (length items));
          ("opens", JS.of_nat (length opened));
          ("clicks", JS.of_nat (length clicked));
          ("replies", JS.of_nat (length replied));
          ("activities", VArray rows) ])
  | _ => Throw (not_a_function "activities.filter")
  end.

(** [xs.length] of what [map] has just traversed. *)
Definition length_of (v : value) : value :=
  match v with
  | VArray items => JS.of_nat (length items)
  | VString s => JS.of_nat (String.length s)
  | _ => VUndefined
  end.

(** *** Rendering *)

(** [`<status>\n\n<header>:\n<summary>\n\nFull data:\n<result>`] *)
Definition headed_text (status header : string) (summary result : value) : string :=
  status ++ JS.nl ++ JS.nl
  ++ header ++ ":" ++ JS.nl ++ JSON_stringify summary ++ JS.nl ++ JS.nl
  ++ "Full data:" ++ JS.nl ++ JSON_stringify result.

(** [`<title>:\n\n<summary>\n\nFull data:\n<result>`] *)
Definition titled_text (title : string) (summary result : value) : string :=
  title ++ ":" ++ JS.nl ++ JS.nl
  ++ JSON_stringify summary ++ JS.nl ++ JS.nl
  ++ "Full data:" ++ JS.nl ++ JSON_stringify result.

(** [result.pagination?.total_entries || 0] *)
Definition total_entries (result : value) : value :=
  JS.or_else (JS.opt_prop (JS.prop result "pagination") "total_entries") (VNumber 0).

(** *** The tool handlers: the [case]s of the [switch] *)

Definition apollo_search_people (args : value) : completion CallToolResult :=
  validated <- parse_or_throw SearchPeopleSchema args ;;
  result <- searchPeople (search_people_params validated) ;;
  people <- read result "people" ;;
  let people := JS.or_else people (VArray []) in
  summary <- top_rows "people" people person_row ;;
  Normal (text_result
    (headed_text ("Found " ++ to_string (total_entries result) ++ " people")
       "Top Results" summary result)).

Definition apollo_enrich_person (args : value) : completion CallToolResult :=
  validated <- parse_or_throw EnrichPersonSchema args ;;
  result <- enrichPerson (enrich_person_params validated) ;;
  person <- read result "person" ;;
  if negb (JS.truthy person)
  then Normal (text_result "No person found with the provided information.")
  else Normal (text_result
         (titled_text "Person Enrichment" (person_summary person) result)).

Definition apollo_enrich_organization (args : value) : completion CallToolResult :=
  validated <- parse_or_throw EnrichOrganizationSchema args ;;
  result <- enrichOrganization (JS.prop validated "domain") ;;
  org <- read result "organization" ;;
  if negb (JS.truthy org)
  then Normal (text_result "No organization found with the provided domain.")
  else
    summary <- organization_summary org ;;
    Normal (text_result (titled_text "Organization Enrichment" summary result)).

Definition apollo_search_organizations (args : value) : completion CallToolResult :=
  validated <- parse_or_throw SearchOrganizationsSchema args ;;
  result <- searchOrganizations (search_organizations_params validated) ;;
  orgs <- read result "organizations" ;;
  let orgs := JS.or_else orgs (VArray []) in
  summary <- top_rows "orgs" orgs organization_row ;;
  Normal (text_result
    (headed_text ("Found " ++ to_string (total_entries result) ++ " organizations")
       "Top Results" summary result)).

Definition apollo_search_sequences (args : value) : completion CallToolResult :=
  validated <- parse_or_throw SearchSequencesSchema args ;;
  result <- searchSequences (search_sequences_params validated) ;;
  sequences <- read result "emailer_campaigns" ;;
  let sequences := JS.or_else sequences (VArray []) in
  summary <- call_map "sequences.map" sequences sequence_row ;;
  Normal (text_result
    (headed_text ("Found " ++ to_string (length_of sequences) ++ " sequences")
       "Summary" summary result)).

Definition apollo_get_email_accounts : completion CallToolResult :=
  result <- getEmailAccounts ;;
  accounts <- read result "email_accounts" ;;
  let accounts := JS.or_else accounts (VArray []) in
  summary <- call_map "accounts.map" accounts account_row ;;
  Normal (text_result
    (headed_text ("Found " ++ to_string (length_of accounts) ++ " email accounts")
       "Accounts" summary result)).

Definition apollo_get_email_message_activities (args : value)
  : completion CallToolResult :=
  validated <- parse_or_throw GetEmailMessageActivitiesSchema args ;;
  let message_id := JS.prop validated "message_id" in
  result <- getEmailMessageActivities message_id ;;
  activities <- read result "emailer_touches" ;;
  let activities := JS.or_else activities (VArray []) in
  summary <- activities_summary message_id activities ;;
  Normal (text_result (titled_text "Email Message Activities" summary result)).

(** The [switch (name)] inside the [try]. *)
Definition dispatch (name : string) (args : value) : completion CallToolResult :=
  if name =? "apollo_search_people" then apollo_search_people args
  else if name =? "apollo_enrich_person" then apollo_enrich_person args
  else if name =? "apollo_enrich_organization" then apollo_enrich_organization args
  else if name =? "apollo_search_organizations" then apollo_search_organizations args
  else if name =? "apollo_search_sequences" then apollo_search_sequences args
  else if name =? "apollo_get_email_accounts" then apollo_get_email_accounts
  else if name =? "apollo_get_email_message_activities"
       then apollo_get_email_message_activities args
  else Throw (McpErrorThrown
                {| code := MethodNotFound; message := "Unknown tool: " ++ name |}).

(** *** The [catch] block *)

(** [error.response?.status === n] *)
Definition status_is (response_status : option Z) (n : Z) : bool :=
  match response_status with
  | Some s => (s =? n)%Z
  | None => false
  end.

(** [error.message || "An unexpected error occurred"] *)
Definition message_or_default (error_message : string) : string :=
  if error_message =? "" then "An unexpected error occurred" else error_message.

Definition internal_error (error_message : string) : McpError :=
  {| code := InternalError; message := message_or_default error_message |}.

(** The tests of the [catch] block, in its order: [instanceof ZodError],
    then status 401, then status 429, then everything else.  Only an
    error out of the HTTP call has a [response]. *)
Definition catch_block (error : exn) : McpError :=
  match error with
  | ZodError errors =>
      {| code := InvalidParams;
         message := "Invalid parameters: "
                    ++ JS.join ", " (map Zod.message errors) |}
  | RequestError response_status error_message =>
      if status_is response_status 401 then
        {| code := InvalidRequest;
           message := "Invalid Apollo API key. Check your APOLLO_API_KEY environment variable." |}
      else if status_is response_status 429 then
        {| code := InternalError;
           message := "Apollo API rate limit exceeded. Please wait and try again." |}
      else internal_error error_message
  | McpErrorThrown e => internal_error (McpError_message e)
  | TypeError error_message => internal_error error_message
  end.

(** What the request handler settles with: the tool result it returns,
    or the [McpError] it throws. *)
Inductive Settled : Type :=
| Returned (result : CallToolResult)
| Rejected (error : McpError).

(** The [CallToolRequestSchema] handler. *)
Definition callTool (name : string) (args : value) : Settled :=
  match dispatch name args with
  | Normal result => Returned result
  | Throw error => Rejected (catch_block error)
  end.

(** The tool names of the catalog, in the order [ListTools] returns them. *)
Definition tool_names : list string :=
  [ "apollo_search_people"; "apollo_enrich_person"; "apollo_enrich_organization";
    "apollo_search_organizations"; "apollo_search_sequences";
    "apollo_get_email_accounts"; "apollo_get_email_message_activities" ].

(** *** Vocabulary of the statements *)

(** The pairs [z.object] merges, for a shape and an input object. *)
Definition object_pairs (shape : list (string * ZodSchema)) (data : value)
  : list (string * bool * ParseResult) :=
  map (fun entry : string * ZodSchema =>
         match entry with
         | (key, s) => (key, JS.has_key key data, parse s (JS.prop data key))
         end) shape.

(** Whether every declared key of a shape validates on its own. *)
Definition fields_valid (shape : list (string * ZodSchema)) (data : value) : bool :=
  forallb (fun entry : string * ZodSchema =>
             is_valid (parse (snd entry) (JS.prop data (fst entry)))) shape.

(** The properties [z.object] writes to its output. *)
Definition output_entries (pairs : list (string * bool * ParseResult))
  : list (string * value) :=
  flat_map (fun p : string * bool * ParseResult =>
              output_entry (fst (fst p)) (snd (fst p)) (output_of (snd p))) pairs.

(** [z.number().optional().default(d)]: the default for a missing
    value, and any number as it is. *)
Definition paging (d : Q) : ZodSchema := ZDefault (ZOptional ZNumber) (VNumber d).

(** The shape an object schema declares. *)
Definition shape_of (schema : ZodSchema) : list (string * ZodSchema) :=
  match schema with
  | ZObject shape => shape
  | _ => []
  end.

(** The filter fields of a search schema: its shape without the two
    pagination keys. *)
Definition filter_fields (schema : ZodSchema) : list (string * ZodSchema) :=
  filter (fun entry : string * ZodSchema =>
            negb ((fst entry =? "page") || (fst entry =? "per_page")))
         (shape_of schema).

(** A search schema is its filter fields followed by [page] (default 1)
    and [per_page] (default [d]). *)
Definition paged_shape (filters : list (string * ZodSchema)) (d : Q)
  : list (string * ZodSchema) :=
  (filters ++ [ ("page", paging 1); ("per_page", paging d) ])%list.

(** What a validated optional filter can be: missing, a string, or an
    array (of strings). *)
Definition filter_value (v : value) : Prop :=
  match v with
  | VUndefined | VString _ | VArray _ => True
  | _ => False
  end.

(** The chain of [if (validated.src) params.dst = validated.src;]
    statements of a handler, as a fold over its (src, dst) pairs. *)
Definition copy_all (validated : value) (renames : list (string * string))
           (params : value) : value :=
  fold_left (fun params r => copy_if_truthy validated (fst r) (snd r) params)
            renames params.

(** The (validated field, request field) pairs of each handler. *)
Definition search_people_renames : list (string * string) :=
  [ ("keywords", "q_keywords"); ("titles", "person_titles");
    ("locations", "person_locations"); ("organization_ids", "organization_ids") ].

(** The enrichment copies its fields under their own names. *)
Definition enrich_person_renames : list (string * string) :=
  [ ("first_name", "first_name"); ("last_name", "last_name"); ("email", "email");
    ("domain", "domain"); ("organization_name", "organization_name") ].

Definition search_organizations_renames : list (string * string) :=
  [ ("keywords", "q_keywords"); ("locations", "organization_locations");
    ("employee_ranges", "organization_num_employees_ranges") ].

Definition search_sequences_renames : list (string * string) :=
  [ ("name", "name") ].

(** The search and enrichment tools that build their request from
    optional fields: schema, request builder, field pairs. *)
Definition mapped_tools : list (ZodSchema * (value -> value) * list (string * string)) :=
  [ (SearchPeopleSchema, search_people_params, search_people_renames);
    (EnrichPersonSchema, enrich_person_params, enrich_person_renames);
    (SearchOrganizationsSchema, search_organizations_params,
      search_organizations_renames);
    (SearchSequencesSchema, search_sequences_params, search_sequences_renames) ].

(** What the callbacks of the activities summary compute on an
    activity that is an object. *)
Definition has_touch_type (t : string) (a : value) : bool :=
  match JS.prop a "touch_type" with
  | VString s => s =? t
  | _ => false
  end.

(** The reduced form of an activity in the summary. *)
Definition activity_entry (a : value) : value :=
  VObject
    [ ("type", JS.prop a "touch_type");
      ("created_at", JS.prop a "created_at");
      ("user_agent", JS.prop a "user_agent") ].

(** An activity with one of the three touch types the summary counts. *)
Definition counted (a : value) : bool :=
  has_touch_type "opened" a || has_touch_type "clicked" a || has_touch_type "replied" a.

(** An entry of a payload list that is a record: not [null] (and not
    [undefined]), so that its properties can be read. *)
Definition record_like (a : value) : Prop := JS.nullish a = false.
(** The reduced forms of a record in the list summaries: what the
    [map] callbacks return on an entry that is a record. *)
Definition person_entry (p : value) : value :=
  VObject
    [ ("name", JS.prop p "name");
      ("title", JS.prop p "title");
      ("company", JS.opt_prop (JS.prop p "organization") "name");
      ("location", location_of p);
      ("email", JS.prop p "email");
      ("linkedin", JS.prop p "linkedin_url") ].

Definition organization_entry (o : value) : value :=
  VObject
    [ ("name", JS.prop o "name");
      ("domain", JS.prop o "primary_domain");
      ("industry", JS.prop o "industry");
      ("employees", JS.prop o "estimated_num_employees");
      ("location", location_of o) ].

Definition sequence_entry (s : value) : value :=
  VObject
    [ ("id", JS.prop s "id");
      ("name", JS.prop s "name");
      ("active", JS.prop s "active");
      ("num_steps", JS.prop s "num_steps");
      ("stats", VObject
         [ ("sent", JS.prop s "num_contacted_people");
           ("bounced", JS.prop s "num_bounced_people");
           ("replied", JS.prop s "num_replied_people");
           ("interested", JS.prop s "num_interested_people");
           ("opt_out", JS.prop s "num_opt_out_people") ]) ].

Definition account_entry (a : value) : value :=
  VObject
    [ ("id", JS.prop a "id");
      ("email", JS.prop a "email");
      ("active", JS.prop a "active");
      ("type", JS.prop a "type") ].

(** The one call each tool makes on the axios instance, given its
    validated arguments: the method, path and body of the
    [ApolloClient] operation its [case] invokes. *)
Definition tool_request (name : string) (validated : value) : option Request :=
  if name =? "apollo_search_people" then
    Some {| method := POST; url := "/mixed_people/search";
            data := search_people_params validated |}
  else if name =? "apollo_enrich_person" then
    Some {| method := POST; url := "/people/match";
            data := enrich_person_params validated |}
  else if name =? "apollo_enrich_organization" then
    Some {| method := POST; url := "/organizations/enrich";
            data := VObject [("domain", JS.prop validated "domain")] |}
  else if name =? "apollo_search_organizations" then
    Some {| method := POST; url := "/mixed_companies/search";
            data := search_organizations_params validated |}
  else if name =? "apollo_search_sequences" then
    Some {| method := POST; url := "/emailer_campaigns/search";
            data := search_sequences_params validated |}
  else if name =? "apollo_get_email_accounts" then
    Some {| method := GET; url := "/email_accounts"; data := VUndefined |}
  else if name =? "apollo_get_email_message_activities" then
    Some {| method := GET;
            url := "/emailer_messages/" ++ to_string (JS.prop validated "message_id")
                   ++ "/activities";
            data := VUndefined |}
  else None.

(** [validated] is what a tool's validator makes of [args]; a tool
    without a validator never looks at them. *)
Definition validates (schema : option ZodSchema) (args validated : value) : Prop :=
  match schema with
  | Some s => parse s args = Valid validated
  | None => True
  end.

(** A completion that is not a thrown [McpError]. *)
Definition no_McpError {A : Type} (c : completion A) : Prop :=
  forall e, c <> Throw (McpErrorThrown e).

(** The schemas of the leaves of the six validators. *)
Definition leaf_schemas : list ZodSchema :=
  [ ZString; ZOptional ZString; ZOptional (ZArray ZString);
    paging 1; paging 10; paging 25 ].


(** The message of the [invalid_type] issue on what is not an object. *)
Definition not_an_object (args : value) : string :=
  match args with
  | VUndefined => "Required"
  | _ => "Expected object, received " ++ parsed_type args
  end.

(** The keys a request body may hold: the pagination keys of the
    tool's schema, and the names its filters are copied under. *)
Definition request_fields (schema : ZodSchema) (renames : list (string * string))
  : list string :=
  (filter (fun k => (k =? "page") || (k =? "per_page")) (map fst (shape_of schema))
   ++ map snd renames)%list.

(** The three tools that page their results. *)
Definition search_tools : list (ZodSchema * (value -> value)) :=
  [ (SearchPeopleSchema, search_people_params);
    (SearchOrganizationsSchema, search_organizations_params);
    (SearchSequencesSchema, search_sequences_params) ].

(** ** Strings *)

#[local] Set Default Proof Using "Type".

Lemma append_assoc (a b c : string) : (a ++ b) ++ c = a ++ b ++ c.
Proof.
  induction a as [|x a IH]; simpl; [reflexivity|].
  now rewrite IH.
Qed.

Lemma list_ascii_of_append (a b : string) :
  list_ascii_of_string (a ++ b)
  = (list_ascii_of_string a ++ list_ascii_of_string b)%list.
Proof.
  induction a as [|x a IH]; simpl; [reflexivity|].
  now rewrite IH.
Qed.

Lemma list_ascii_of_string_inj (a b : string) :
  list_ascii_of_string a = list_ascii_of_string b -> a = b.
Proof.
  intros H.
  rewrite <- (string_of_list_ascii_of_string a),
          <- (string_of_list_ascii_of_string b).
  now rewrite H.
Qed.

Lemma append_inv_tail (a b c : string) : a ++ c = b ++ c -> a = b.
Proof.
  intros H. apply list_ascii_of_string_inj.
  apply (f_equal list_ascii_of_string) in H.
  rewrite !list_ascii_of_append in H.
  now apply app_inv_tail in H.
Qed.

(** Two strings that end in different characters differ. *)
Lemma append_last_inj (a b : string) (x y : ascii) :
  a ++ String x EmptyString = b ++ String y EmptyString -> a = b /\ x = y.
Proof.
  intros H.
  apply (f_equal list_ascii_of_string) in H.
  rewrite !list_ascii_of_append in H. simpl in H.
  apply app_inj_tail in H. destruct H as [H ->].
  split; [now apply list_ascii_of_string_inj | reflexivity].
Qed.

(** ** Objects *)

Lemma lookup_assign (k k' : string) (v : value) (props : list (string * value)) :
  JS.lookup k (JS.assign k' v props)
  = if k' =? k then Some v else JS.lookup k props.
Proof.
  induction props as [|[k0 v0] rest IH]; simpl.
  - reflexivity.
  - destruct (k0 =? k') eqn:E0; simpl.
    + apply String.eqb_eq in E0. subst k0.
      destruct (k' =? k); reflexivity.
    + destruct (k0 =? k) eqn:E1.
      * apply String.eqb_eq in E1. subst k0.
        rewrite String.eqb_sym, E0. reflexivity.
      * exact IH.
Qed.

(** ** Validation *)

Lemma parse_object (shape : list (string * ZodSchema)) (props : list (string * value)) :
  parse (ZObject shape) (VObject props)
  = merge_object (object_pairs shape (VObject props)).
Proof. reflexivity. Qed.

Lemma forallb_object_pairs (shape : list (string * ZodSchema)) (data : value) :
  forallb (fun p : string * bool * ParseResult => is_valid (snd p))
          (object_pairs shape data)
  = fields_valid shape data.
Proof.
  unfold object_pairs, fields_valid.
  induction shape as [|[k s] rest IH]; simpl; [reflexivity|].
  now rewrite IH.
Qed.

(** An object validates exactly when each declared key does. *)
Lemma parse_object_valid (shape : list (string * ZodSchema)) (props : list (string * value)) :
  is_valid (parse (ZObject shape) (VObject props)) = fields_valid shape (VObject props).
Proof.
  rewrite parse_object. unfold merge_object.
  rewrite forallb_object_pairs.
  destruct (fields_valid shape (VObject props)); reflexivity.
Qed.

Lemma lookup_output_entries_absent (k : string) (pairs : list (string * bool * ParseResult)) :
  ~ In k (map (fun p => fst (fst p)) pairs) ->
  JS.lookup k (output_entries pairs) = None.
Proof.
  induction pairs as [|[[k0 b0] r0] rest IH]; simpl; intros Hk; [reflexivity|].
  assert (E : (k0 =? k) = false)
    by (apply String.eqb_neq; intros ->; apply Hk; left; reflexivity).
  assert (Hrest : ~ In k (map (fun p => fst (fst p)) rest))
    by (intros Hin; apply Hk; right; exact Hin).
  unfold output_entry. simpl.
  destruct (output_of r0), b0; simpl; rewrite ?E; apply IH; exact Hrest.
Qed.

Lemma lookup_output_entries (k : string) (b : bool) (r : ParseResult)
      (pairs : list (string * bool * ParseResult)) :
  NoDup (map (fun p => fst (fst p)) pairs) ->
  In (k, b, r) pairs ->
  match JS.lookup k (output_entries pairs) with
  | Some v => v
  | None => VUndefined
  end = output_of r.
Proof.
  induction pairs as [|[[k0 b0] r0] rest IH]; simpl; intros Hnd Hin; [contradiction|].
  inversion Hnd as [|? ? Hk0 Hrest]; subst.
  destruct Hin as [Heq | Hin].
  - inversion Heq; subst.
    unfold output_entry. simpl.
    destruct (output_of r) eqn:Er, b; simpl; rewrite ?String.eqb_refl; try reflexivity.
    now rewrite lookup_output_entries_absent.
  - assert (E : (k0 =? k) = false).
    { apply String.eqb_neq. intros ->. apply Hk0.
      apply (in_map (fun p => fst (fst p))) in Hin. exact Hin. }
    unfold output_entry. simpl.
    destruct (output_of r0), b0; simpl; rewrite ?E; now apply IH.
Qed.

Lemma object_pairs_keys (shape : list (string * ZodSchema)) (data : value) :
  map (fun p => fst (fst p)) (object_pairs shape data) = map fst shape.
Proof.
  unfold object_pairs. rewrite map_map.
  apply map_ext. intros [k s]. reflexivity.
Qed.

(** A validated object holds, under each declared key, what that key's
    schema made of the input's value for it. *)
Lemma parse_object_prop (shape : list (string * ZodSchema)) (props : list (string * value))
      (validated : value) (k : string) (s : ZodSchema) :
  NoDup (map fst shape) ->
  In (k, s) shape ->
  parse (ZObject shape) (VObject props) = Valid validated ->
  parse s (JS.prop (VObject props) k) = Valid (JS.prop validated k).
Proof.
  intros Hnd Hin Hp.
  rewrite parse_object in Hp. unfold merge_object in Hp.
  destruct (forallb _ _) eqn:Hall; [|discriminate].
  inversion Hp; subst validated; clear Hp.
  set (data := VObject props) in *.
  assert (Hin' : In (k, JS.has_key k data, parse s (JS.prop data k))
                    (object_pairs shape data)).
  { unfold object_pairs.
    apply (in_map (fun entry : string * ZodSchema =>
                     match entry with
                     | (key, s0) => (key, JS.has_key key data, parse s0 (JS.prop data key))
                     end)) in Hin. exact Hin. }
  rewrite forallb_forall in Hall. specialize (Hall _ Hin'). cbn [snd] in Hall.
  unfold JS.prop at 2. fold (output_entries (object_pairs shape data)).
  rewrite (lookup_output_entries k _ _ _
             ltac:(rewrite object_pairs_keys; exact Hnd) Hin').
  destruct (parse s (JS.prop data k)); [reflexivity | discriminate].
Qed.

(** Only an object validates against an object schema. *)
Lemma parse_object_inv (shape : list (string * ZodSchema)) (args validated : value) :
  parse (ZObject shape) args = Valid validated ->
  exists props, args = VObject props.
Proof.
  destruct args; simpl; try discriminate.
  intros _. eexists; reflexivity.
Qed.

Lemma fields_valid_app (a b : list (string * ZodSchema)) (data : value) :
  fields_valid (a ++ b)%list data = fields_valid a data && fields_valid b data.
Proof. unfold fields_valid. apply forallb_app. Qed.

Lemma parse_paging_missing (d : Q) : parse (paging d) VUndefined = Valid (VNumber d).
Proof. reflexivity. Qed.

Lemma parse_paging_number (d q : Q) : parse (paging d) (VNumber q) = Valid (VNumber q).
Proof. reflexivity. Qed.

Lemma paged_schema (filters : list (string * ZodSchema)) (d : Q)
      (props : list (string * value)) (page per_page : value) :
  NoDup (map fst (paged_shape filters d)) ->
  parse (paging 1) (JS.prop (VObject props) "page") = Valid page ->
  parse (paging d) (JS.prop (VObject props) "per_page") = Valid per_page ->
  is_valid (parse (ZObject (paged_shape filters d)) (VObject props))
  = fields_valid filters (VObject props)
  /\ forall validated,
       parse (ZObject (paged_shape filters d)) (VObject props) = Valid validated ->
       JS.prop validated "page" = page /\ JS.prop validated "per_page" = per_page.
Proof.
  intros Hnd Hpage Hper. split.
  - rewrite parse_object_valid. unfold paged_shape.
    rewrite fields_valid_app.
    unfold fields_valid at 2. cbn [forallb fst snd].
    rewrite Hpage, Hper. cbn [is_valid andb].
    apply andb_true_r.
  - intros validated Hv. split.
    + pose proof (parse_object_prop _ _ _ "page" (paging 1) Hnd
                    ltac:(unfold paged_shape; apply in_or_app; right; simpl; auto) Hv) as H.
      rewrite Hpage in H. now inversion H.
    + pose proof (parse_object_prop _ _ _ "per_page" (paging d) Hnd
                    ltac:(unfold paged_shape; apply in_or_app; right; simpl; auto) Hv) as H.
      rewrite Hper in H. now inversion H.
Qed.

(** The declared keys of each schema are pairwise distinct. *)
Ltac not_in_list :=
  cbn; let H := fresh in
       intros H; repeat (destruct H as [H | H]; [discriminate H|]); exact H.

Ltac distinct_keys :=
  cbn; repeat (constructor; [not_in_list|]); constructor.

Lemma SearchPeopleSchema_keys : NoDup (map fst (shape_of SearchPeopleSchema)).
Proof. distinct_keys. Qed.

Lemma EnrichPersonSchema_keys : NoDup (map fst (shape_of EnrichPersonSchema)).
Proof. distinct_keys. Qed.

Lemma SearchOrganizationsSchema_keys :
  NoDup (map fst (shape_of SearchOrganizationsSchema)).
Proof. distinct_keys. Qed.

Lemma SearchSequencesSchema_keys : NoDup (map fst (shape_of SearchSequencesSchema)).
Proof. distinct_keys. Qed.

(** C8 — an argument object that leaves out [page] and [per_page]
    validates exactly when its filter fields do, and is then completed
    with [page = 1] and [per_page = 10] by [SearchPeopleSchema] and
    [SearchOrganizationsSchema], and with [page = 1] and
    [per_page = 25] by [SearchSequencesSchema]. *)
Theorem C8_pagination_defaults (props : list (string * value)) :
  JS.lookup "page" props = None ->
  JS.lookup "per_page" props = None ->
  let args := VObject props in
  (is_valid (parse SearchPeopleSchema args)
     = fields_valid (filter_fields SearchPeopleSchema) args
   /\ forall validated,
        parse SearchPeopleSchema args = Valid validated ->
        JS.prop validated "page" = VNumber 1
        /\ JS.prop validated "per_page" = VNumber 10)
  /\ (is_valid (parse SearchOrganizationsSchema args)
        = fields_valid (filter_fields SearchOrganizationsSchema) args
      /\ forall validated,
           parse SearchOrganizationsSchema args = Valid validated ->
           JS.prop validated "page" = VNumber 1
           /\ JS.prop validated "per_page" = VNumber 10)
  /\ (is_valid (parse SearchSequencesSchema args)
        = fields_valid (filter_fields SearchSequencesSchema) args
      /\ forall validated,
           parse SearchSequencesSchema args = Valid validated ->
           JS.prop validated "page" = VNumber 1
           /\ JS.prop validated "per_page" = VNumber 25).
Proof.
  intros Hpage Hper args.
  assert (Ep : JS.prop args "page" = VUndefined)
    by (unfold args; simpl; now rewrite Hpage).
  assert (Epp : JS.prop args "per_page" = VUndefined)
    by (unfold args; simpl; now rewrite Hper).
  repeat split.
  - apply (paged_schema (filter_fields SearchPeopleSchema) 10 props
             (VNumber 1) (VNumber 10) SearchPeopleSchema_keys);
      fold args; [rewrite Ep | rewrite Epp]; reflexivity.
  - eapply (paged_schema (filter_fields SearchPeopleSchema) 10 props
              (VNumber 1) (VNumber 10) SearchPeopleSchema_keys);
      fold args; [rewrite Ep | rewrite Epp | eassumption]; reflexivity.
  - eapply (paged_schema (filter_fields SearchPeopleSchema) 10 props
              (VNumber 1) (VNumber 10) SearchPeopleSchema_keys);
      fold args; [rewrite Ep | rewrite Epp | eassumption]; reflexivity.
  - apply (paged_schema (filter_fields SearchOrganizationsSchema) 10 props
             (VNumber 1) (VNumber 10) SearchOrganizationsSchema_keys);
      fold args; [rewrite Ep | rewrite Epp]; reflexivity.
  - eapply (paged_schema (filter_fields SearchOrganizationsSchema) 10 props
              (VNumber 1) (VNumber 10) SearchOrganizationsSchema_keys);
      fold args; [rewrite Ep | rewrite Epp | eassumption]; reflexivity.
  - eapply (paged_schema (filter_fields SearchOrganizationsSchema) 10 props
              (VNumber 1) (VNumber 10) SearchOrganizationsSchema_keys);
      fold args; [rewrite Ep | rewrite Epp | eassumption]; reflexivity.
  - apply (paged_schema (filter_fields SearchSequencesSchema) 25 props
             (VNumber 1) (VNumber 25) SearchSequencesSchema_keys);
      fold args; [rewrite Ep | rewrite Epp]; reflexivity.
  - eapply (paged_schema (filter_fields SearchSequencesSchema) 25 props
              (VNumber 1) (VNumber 25) SearchSequencesSchema_keys);
      fold args; [rewrite Ep | rewrite Epp | eassumption]; reflexivity.
  - eapply (paged_schema (filter_fields SearchSequencesSchema) 25 props
              (VNumber 1) (VNumber 25) SearchSequencesSchema_keys);
      fold args; [rewrite Ep | rewrite Epp | eassumption]; reflexivity.
Qed.

(** C10 — whatever numbers [page] and [per_page] are (zero, negative,
    fractional, above 100), the three search schemas accept them
    unchanged: the argument object validates exactly when its filter
    fields do, and the validated [page] and [per_page] are the numbers
    given. *)
Theorem C10_pagination_unconstrained (props : list (string * value)) (p pp : Q) :
  JS.lookup "page" props = Some (VNumber p) ->
  JS.lookup "per_page" props = Some (VNumber pp) ->
  let args := VObject props in
  (is_valid (parse SearchPeopleSchema args)
     = fields_valid (filter_fields SearchPeopleSchema) args
   /\ forall validated,
        parse SearchPeopleSchema args = Valid validated ->
        JS.prop validated "page" = VNumber p
        /\ JS.prop validated "per_page" = VNumber pp)
  /\ (is_valid (parse SearchOrganizationsSchema args)
        = fields_valid (filter_fields SearchOrganizationsSchema) args
      /\ forall validated,
           parse SearchOrganizationsSchema args = Valid validated ->
           JS.prop validated "page" = VNumber p
           /\ JS.prop validated "per_page" = VNumber pp)
  /\ (is_valid (parse SearchSequencesSchema args)
        = fields_valid (filter_fields SearchSequencesSchema) args
      /\ forall validated,
           parse SearchSequencesSchema args = Valid validated ->
           JS.prop validated "page" = VNumber p
           /\ JS.prop validated "per_page" = VNumber pp).
Proof.
  intros Hpage Hper args.
  assert (Ep : JS.prop args "page" = VNumber p)
    by (unfold args; simpl; now rewrite Hpage).
  assert (Epp : JS.prop args "per_page" = VNumber pp)
    by (unfold args; simpl; now rewrite Hper).
  pose proof (paged_schema (filter_fields SearchPeopleSchema) 10 props
                (VNumber p) (VNumber pp) SearchPeopleSchema_keys) as People.
  pose proof (paged_schema (filter_fields SearchOrganizationsSchema) 10 props
                (VNumber p) (VNumber pp) SearchOrganizationsSchema_keys) as Orgs.
  pose proof (paged_schema (filter_fields SearchSequencesSchema) 25 props
                (VNumber p) (VNumber pp) SearchSequencesSchema_keys) as Seqs.
  fold args in People, Orgs, Seqs.
  rewrite Ep, Epp in People, Orgs, Seqs.
  split; [|split].
  - apply People; apply parse_paging_number.
  - apply Orgs; apply parse_paging_number.
  - apply Seqs; apply parse_paging_number.
Qed.

(** ** Request parameters *)

(** [JSON]-typed outputs of the optional filter schemas. *)
Lemma parse_string_inv (x v : value) :
  parse ZString x = Valid v -> v = x /\ exists s, x = VString s.
Proof.
  destruct x; simpl; try discriminate.
  intros H. inversion H. split; [reflexivity | eexists; reflexivity].
Qed.

Lemma parse_strings (items : list value) :
  forallb is_valid (map (parse ZString) items) = true ->
  map output_of (map (parse ZString) items) = items.
Proof.
  induction items as [|x rest IH]; cbn [map forallb]; [reflexivity|].
  intros H. apply andb_true_iff in H. destruct H as [Hx Hrest].
  rewrite (IH Hrest). destruct x; simpl in Hx; try discriminate. reflexivity.
Qed.

Lemma parse_string_array_inv (x v : value) :
  parse (ZArray ZString) x = Valid v -> v = x /\ exists items, x = VArray items.
Proof.
  destruct x; try (simpl; discriminate).
  change (parse (ZArray ZString) (VArray items))
    with (merge_array (map (parse ZString) items)).
  unfold merge_array. destruct (forallb _ _) eqn:Hall; [|discriminate].
  rewrite (parse_strings _ Hall).
  intros H. injection H as <-.
  split; [reflexivity | eexists; reflexivity].
Qed.

Lemma parse_optional_string_inv (x v : value) :
  parse (ZOptional ZString) x = Valid v -> v = x /\ filter_value v.
Proof.
  destruct x; simpl; try discriminate; intros H; inversion H; simpl; auto.
Qed.

Lemma parse_optional_strings_inv (x v : value) :
  parse (ZOptional (ZArray ZString)) x = Valid v -> v = x /\ filter_value v.
Proof.
  destruct x; try (simpl; discriminate).
  - simpl. intros H. inversion H. simpl. auto.
  - intros H. change (parse (ZArray ZString) (VArray items) = Valid v) in H.
    apply parse_string_array_inv in H. destruct H as [-> _]. simpl. auto.
Qed.

(** On such a value the truthiness test of the handler lets through
    everything that is there, except the empty string. *)
Lemma truthy_filter_value (v : value) :
  filter_value v ->
  (JS.truthy v = true <-> v <> VUndefined /\ v <> VString "").
Proof.
  destruct v; simpl; try contradiction; intros _.
  - split; [discriminate | intros [H _]; now contradiction H].
  - destruct s; simpl.
    + split; [discriminate | intros [_ H]; now contradiction H].
    + split; [intros _; split; discriminate | reflexivity].
  - split; [intros _; split; discriminate | reflexivity].
Qed.

Lemma copy_all_cons (validated : value) (s d : string) (rest : list (string * string))
      (params : value) :
  copy_all validated ((s, d) :: rest) params
  = copy_all validated rest (copy_if_truthy validated s d params).
Proof. reflexivity. Qed.

Lemma copy_if_truthy_object (validated : value) (s d : string)
      (props : list (string * value)) :
  copy_if_truthy validated s d (VObject props)
  = VObject (if JS.truthy (JS.prop validated s)
             then JS.assign d (JS.prop validated s) props
             else props).
Proof. unfold copy_if_truthy. destruct (JS.truthy _); reflexivity. Qed.

Lemma copy_all_other (validated : value) (renames : list (string * string))
      (props : list (string * value)) (k : string) :
  ~ In k (map snd renames) ->
  JS.prop (copy_all validated renames (VObject props)) k = JS.prop (VObject props) k
  /\ JS.has_key k (copy_all validated renames (VObject props))
     = JS.has_key k (VObject props).
Proof.
  revert props. induction renames as [|[s d] rest IH]; intros props Hk.
  - split; reflexivity.
  - cbn [map snd In] in Hk.
    assert (Hd : (d =? k) = false)
      by (apply String.eqb_neq; intros ->; apply Hk; left; reflexivity).
    rewrite copy_all_cons, copy_if_truthy_object.
    destruct (IH (if JS.truthy (JS.prop validated s)
                  then JS.assign d (JS.prop validated s) props
                  else props)) as [Hp Hh];
      [intros Hin; apply Hk; right; exact Hin|].
    rewrite Hp, Hh.
    destruct (JS.truthy _); [|split; reflexivity].
    cbn [JS.prop JS.has_key]. rewrite lookup_assign, Hd. split; reflexivity.
Qed.

Lemma copy_all_spec (validated : value) (renames : list (string * string))
      (props : list (string * value)) (src dst : string) :
  NoDup (map snd renames) ->
  In (src, dst) renames ->
  JS.lookup dst props = None ->
  let sent := copy_all validated renames (VObject props) in
  JS.has_key dst sent = JS.truthy (JS.prop validated src)
  /\ JS.prop sent dst
     = if JS.truthy (JS.prop validated src) then JS.prop validated src else VUndefined.
Proof.
  revert props. induction renames as [|[s d] rest IH]; intros props Hnd Hin Hnone.
  - contradiction.
  - cbn [map snd] in Hnd. inversion Hnd as [|? ? Hd Hrest]; subst.
    cbv zeta. rewrite copy_all_cons, copy_if_truthy_object.
    destruct Hin as [Heq | Hin].
    + injection Heq as -> ->.
      destruct (copy_all_other validated rest
                  (if JS.truthy (JS.prop validated src)
                   then JS.assign dst (JS.prop validated src) props
                   else props) dst Hd) as [Hp Hh].
      rewrite Hp, Hh. cbn [JS.prop JS.has_key].
      destruct (JS.truthy (JS.prop validated src)).
      * rewrite lookup_assign, String.eqb_refl. split; reflexivity.
      * rewrite Hnone. split; reflexivity.
    + assert (Hne : (d =? dst) = false).
      { apply String.eqb_neq. intros ->. apply Hd.
        apply (in_map snd) in Hin. exact Hin. }
      apply IH; auto.
      destruct (JS.truthy (JS.prop validated s)); [|exact Hnone].
      rewrite lookup_assign, Hne. exact Hnone.
Qed.

(** Each optional filter of a mapped tool validates to a filter value. *)
Ltac in_list := solve [cbn; repeat (first [left; reflexivity | right])].

Ltac filter_field shape Hv keys :=
  match goal with
  | |- filter_value (JS.prop ?validated ?src) =>
      first
        [ assert (Hf : In (src, ZOptional ZString) shape) by in_list;
          apply (fun H => parse_object_prop shape _ _ src _ keys H Hv) in Hf;
          apply parse_optional_string_inv in Hf; apply Hf
        | assert (Hf : In (src, ZOptional (ZArray ZString)) shape) by in_list;
          apply (fun H => parse_object_prop shape _ _ src _ keys H Hv) in Hf;
          apply parse_optional_strings_inv in Hf; apply Hf ]
  end.

Lemma mapped_tool_fields (schema : ZodSchema) (build : value -> value)
      (renames : list (string * string)) (args validated : value) (src dst : string) :
  In (schema, build, renames) mapped_tools ->
  parse schema args = Valid validated ->
  In (src, dst) renames ->
  filter_value (JS.prop validated src).
Proof.
  intros Htool Hv Hin.
  destruct (parse_object_inv (shape_of schema) args validated) as [props ->].
  { cbn in Htool.
    destruct Htool as [E | [E | [E | [E | []]]]]; injection E as <- <- <-; exact Hv. }
  cbn in Htool.
  destruct Htool as [E | [E | [E | [E | []]]]]; injection E as <- <- <-.
  - cbn in Hin.
    destruct Hin as [E | [E | [E | [E | []]]]]; injection E as <- <-;
      filter_field (shape_of SearchPeopleSchema) Hv SearchPeopleSchema_keys.
  - cbn in Hin.
    destruct Hin as [E | [E | [E | [E | [E | []]]]]]; injection E as <- <-;
      filter_field (shape_of EnrichPersonSchema) Hv EnrichPersonSchema_keys.
  - cbn in Hin.
    destruct Hin as [E | [E | [E | []]]]; injection E as <- <-;
      filter_field (shape_of SearchOrganizationsSchema) Hv
                   SearchOrganizationsSchema_keys.
  - cbn in Hin.
    destruct Hin as [E | []]; injection E as <- <-;
      filter_field (shape_of SearchSequencesSchema) Hv SearchSequencesSchema_keys.
Qed.

Lemma mapped_tool_build (schema : ZodSchema) (build : value -> value)
      (renames : list (string * string)) (validated : value) :
  In (schema, build, renames) mapped_tools ->
  NoDup (map snd renames)
  /\ exists props,
       build validated = copy_all validated renames (VObject props)
       /\ forall src dst, In (src, dst) renames -> JS.lookup dst props = None.
Proof.
  intros Htool. simpl in Htool.
  destruct Htool as [E | [E | [E | [E | []]]]]; injection E as <- <- <-.
  - split; [distinct_keys|].
    exists [("page", JS.prop validated "page"); ("per_page", JS.prop validated "per_page")].
    split; [reflexivity|].
    intros src dst Hin. simpl in Hin.
    repeat (destruct Hin as [E | Hin]; [injection E as <- <-; reflexivity|]).
    contradiction.
  - split; [distinct_keys|].
    exists []. split; [reflexivity|]. reflexivity.
  - split; [distinct_keys|].
    exists [("page", JS.prop validated "page"); ("per_page", JS.prop validated "per_page")].
    split; [reflexivity|].
    intros src dst Hin. simpl in Hin.
    repeat (destruct Hin as [E | Hin]; [injection E as <- <-; reflexivity|]).
    contradiction.
  - split; [distinct_keys|].
    exists [("page", JS.prop validated "page"); ("per_page", JS.prop validated "per_page")].
    split; [reflexivity|].
    intros src dst Hin. simpl in Hin.
    repeat (destruct Hin as [E | Hin]; [injection E as <- <-; reflexivity|]).
    contradiction.
Qed.

(** C3 (as amended) — for each search or enrichment tool that builds
    its request from optional fields, the request holds the renamed
    copy of a field exactly when the validated arguments have the field
    and it is not the empty string; the copy is the validated value
    itself, and a field the arguments leave out is not in the request
    at all (so never as [null], [""] or [0]). *)
Theorem C3_filters_copied_when_nonempty
        (schema : ZodSchema) (build : value -> value) (renames : list (string * string))
        (args validated : value) (src dst : string) :
  In (schema, build, renames) mapped_tools ->
  parse schema args = Valid validated ->
  In (src, dst) renames ->
  let sent := build validated in
  (JS.has_key dst sent = true
   <-> JS.prop validated src <> VUndefined /\ JS.prop validated src <> VString "")
  /\ (JS.has_key dst sent = true -> JS.prop sent dst = JS.prop validated src)
  /\ (JS.prop validated src = VUndefined -> JS.has_key dst sent = false).
Proof.
  intros Htool Hv Hin sent.
  pose proof (mapped_tool_fields _ _ _ _ _ _ _ Htool Hv Hin) as Hf.
  destruct (mapped_tool_build _ _ _ validated Htool) as [Hnd [props [Hb Hnone]]].
  destruct (copy_all_spec validated renames props src dst Hnd Hin (Hnone _ _ Hin))
    as [Hk Hp].
  unfold sent. rewrite Hb, Hk, Hp.
  split; [apply truthy_filter_value; exact Hf|].
  split.
  - intros ->. reflexivity.
  - intros ->. reflexivity.
Qed.

(** ** Summaries *)

Lemma location_of_cases (x : value) :
  location_of x
  = if JS.truthy (JS.prop x "city") && JS.truthy (JS.prop x "state")
    then VString (to_string (JS.prop x "city") ++ ", " ++ to_string (JS.prop x "state"))
    else JS.prop x "country".
Proof.
  unfold location_of, JS.and_then.
  destruct (JS.truthy (JS.prop x "city")) eqn:Ec; simpl; [reflexivity|].
  now rewrite Ec.
Qed.

Lemma read_Normal (o : value) (k : string) (v : value) :
  read o k = Normal v -> JS.nullish o = false /\ v = JS.prop o k.
Proof.
  destruct o; simpl; try discriminate; intros H; injection H as <-; auto.
Qed.

Lemma read_not_nullish (o : value) (k : string) :
  JS.nullish o = false -> read o k = Normal (JS.prop o k).
Proof. destruct o; simpl; try discriminate; reflexivity. Qed.

(** Every summary takes its [location] from [location_of]. *)
Lemma summary_location (x row : value) :
  person_row x = Normal row \/ row = person_summary x
  \/ organization_summary x = Normal row \/ organization_row x = Normal row ->
  JS.prop row "location" = location_of x.
Proof.
  intros [H | [H | [H | H]]].
  - unfold person_row in H. destruct (read x "name"); simpl in H; [|discriminate].
    injection H as <-. reflexivity.
  - subst row. reflexivity.
  - unfold organization_summary in H.
    destruct (technologies_of x); simpl in H; [|discriminate].
    injection H as <-. reflexivity.
  - unfold organization_row in H. destruct (read x "name"); simpl in H; [|discriminate].
    injection H as <-. reflexivity.
Qed.

(** C6 (as amended) — in every person and organization summary,
    [location] is the text [city, state] when [city] and [state] are
    both truthy (for strings: both non-empty), and the bare [country]
    field otherwise. *)
Theorem C6_location_when_truthy (x row : value) :
  person_row x = Normal row \/ row = person_summary x
  \/ organization_summary x = Normal row \/ organization_row x = Normal row ->
  let city := JS.prop x "city" in
  let state := JS.prop x "state" in
  (JS.truthy city = true -> JS.truthy state = true ->
   JS.prop row "location" = VString (to_string city ++ ", " ++ to_string state))
  /\ (JS.truthy city = false \/ JS.truthy state = false ->
      JS.prop row "location" = JS.prop x "country")
  /\ (forall c s, city = VString c -> state = VString s -> c <> "" -> s <> "" ->
      JS.prop row "location" = VString (c ++ ", " ++ s)).
Proof.
  intros Hrow city state.
  rewrite (summary_location _ _ Hrow), location_of_cases.
  fold city state.
  split; [|split].
  - intros -> ->. reflexivity.
  - intros [-> | ->]; [reflexivity | now rewrite andb_false_r].
  - intros c s -> -> Hc Hs. simpl.
    apply String.eqb_neq in Hc, Hs. now rewrite Hc, Hs.
Qed.

Lemma firstn_prefix {A : Type} (n : nat) (l : list A) :
  exists rest, l = (firstn n l ++ rest)%list.
Proof. exists (skipn n l). symmetry. apply firstn_skipn. Qed.

(** C7 — when the organization of an enrichment response has a
    [current_technologies] list, the summary's [technologies] is its
    first ten entries in their order (a prefix of length 10 when the
    list is longer), and the whole list when it has at most ten. *)
Theorem C7_technologies_first_ten (args validated result org : value)
        (technologies : list value) :
  parse EnrichOrganizationSchema args = Valid validated ->
  enrichOrganization (JS.prop validated "domain") = Normal result ->
  JS.prop result "organization" = org ->
  JS.prop org "current_technologies" = VArray technologies ->
  exists summary,
    callTool "apollo_enrich_organization" args
    = Returned (text_result (titled_text "Organization Enrichment" summary result))
    /\ JS.prop summary "technologies" = VArray (firstn 10 technologies)
    /\ (10 < length technologies ->
        length (firstn 10 technologies) = 10
        /\ exists rest, technologies = (firstn 10 technologies ++ rest)%list)%nat
    /\ (length technologies <= 10 -> firstn 10 technologies = technologies)%nat.
Proof.
  intros Hv Hr Horg Htech.
  assert (Ho : exists props, org = VObject props).
  { destruct org; simpl in Htech; try discriminate. eexists; reflexivity. }
  destruct Ho as [oprops ->].
  assert (Hres : exists props, result = VObject props).
  { destruct result; simpl in Horg; try discriminate. eexists; reflexivity. }
  destruct Hres as [rprops ->].
  eexists. split; [|split; [|split]].
  - unfold callTool, dispatch. cbn [String.eqb Ascii.eqb Bool.eqb andb].
    unfold apollo_enrich_organization, parse_or_throw.
    rewrite Hv. cbn [bind]. rewrite Hr. cbn [bind].
    rewrite read_not_nullish by reflexivity. cbn [bind]. rewrite Horg.
    cbn [JS.truthy negb].
    unfold organization_summary, technologies_of. rewrite Htech.
    cbn [JS.nullish call_slice bind]. reflexivity.
  - reflexivity.
  - intros Hlen. split; [apply firstn_length_le; lia | apply firstn_prefix].
  - intros Hlen. apply firstn_all2. exact Hlen.
Qed.

Lemma filter_each_records (t : string) (items : list value) :
  Forall record_like items ->
  filter_each (touch_type_is t) items = Normal (filter (has_touch_type t) items).
Proof.
  induction 1 as [|a rest Ha _ IH]; [reflexivity|].
  cbn [filter_each filter]. unfold touch_type_is at 1.
  rewrite (read_not_nullish _ _ Ha). cbn [bind]. rewrite IH. cbn [bind].
  reflexivity.
Qed.

Lemma map_each_records (items : list value) :
  Forall record_like items ->
  map_each activity_row items = Normal (map activity_entry items).
Proof.
  induction 1 as [|a rest Ha _ IH]; [reflexivity|].
  cbn [map_each map]. unfold activity_row at 1.
  rewrite (read_not_nullish _ _ Ha). cbn [bind]. rewrite IH. reflexivity.
Qed.

(** An activity has at most one touch type, so the three counters
    count disjoint activities. *)
Lemma touch_counts (items : list value) :
  (length (filter (has_touch_type "opened") items)
   + length (filter (has_touch_type "clicked") items)
   + length (filter (has_touch_type "replied") items)
   = length (filter counted items))%nat.
Proof.
  induction items as [|a rest IH]; [reflexivity|].
  cbn [filter]. unfold counted at 1.
  assert (Hx : forall t u, t <> u ->
                 has_touch_type t a = true -> has_touch_type u a = false).
  { intros t u Htu. unfold has_touch_type.
    destruct (JS.prop a "touch_type"); try discriminate.
    intros Ht. apply String.eqb_eq in Ht. subst s.
    apply String.eqb_neq. exact Htu. }
  destruct (has_touch_type "opened" a) eqn:E1.
  - rewrite (Hx "opened" "clicked"), (Hx "opened" "replied") by (auto; discriminate).
    cbn [orb length]. lia.
  - destruct (has_touch_type "clicked" a) eqn:E2.
    + rewrite (Hx "clicked" "replied") by (auto; discriminate).
      cbn [orb length]. lia.
    + destruct (has_touch_type "replied" a); cbn [orb length]; lia.
Qed.

(** Over a list of activity records the aggregate is produced: its
    [total_activities] is the length of the list, [activities] lists
    every entry in order, and the three counters count the entries of
    their touch type, which are disjoint. *)
Lemma activities_summary_counts (message_id : value) (items : list value) :
  Forall record_like items ->
  let opens := length (filter (has_touch_type "opened") items) in
  let clicks := length (filter (has_touch_type "clicked") items) in
  let replies := length (filter (has_touch_type "replied") items) in
  exists summary,
    activities_summary message_id (VArray items) = Normal summary
    /\ JS.prop summary "message_id" = message_id
    /\ JS.prop summary "total_activities" = JS.of_nat (length items)
    /\ JS.prop summary "activities" = VArray (map activity_entry items)
    /\ length (map activity_entry items) = length items
    /\ JS.prop summary "opens" = JS.of_nat opens
    /\ JS.prop summary "clicks" = JS.of_nat clicks
    /\ JS.prop summary "replies" = JS.of_nat replies
    /\ (opens + clicks + replies = length (filter counted items))%nat
    /\ (opens + clicks + replies <= length items)%nat.
Proof.
  intros Hrec opens clicks replies.
  eexists. split.
  - unfold activities_summary.
    rewrite !(filter_each_records _ _ Hrec). cbn [bind].
    rewrite (map_each_records _ Hrec). cbn [bind]. reflexivity.
  - repeat split; try reflexivity.
    + apply length_map.
    + apply touch_counts.
    + unfold opens, clicks, replies. rewrite touch_counts. apply filter_length_le.
Qed.

(** ** Rendering *)

(** The two layouts differ: after the blank line that follows the first
    line, one has a header line and the other has the summary itself. *)
Lemma titled_text_not_headed (title status header : string) (summary result : value) :
  titled_text title summary result <> headed_text status header summary result.
Proof.
  unfold titled_text, headed_text. intros H.
  set (tail := JSON_stringify summary ++ JS.nl ++ JS.nl
               ++ "Full data:" ++ JS.nl ++ JSON_stringify result) in H.
  assert (E : ((title ++ ":" ++ JS.nl) ++ JS.nl) ++ tail
              = ((status ++ JS.nl ++ JS.nl ++ header ++ ":") ++ JS.nl) ++ tail).
  { rewrite !append_assoc. exact H. }
  apply append_inv_tail in E.
  apply append_last_inj in E. destruct E as [E _].
  assert (E' : (title ++ ":") ++ JS.nl
               = (status ++ JS.nl ++ JS.nl ++ header) ++ ":").
  { rewrite !append_assoc. exact E. }
  apply append_last_inj in E'. destruct E' as [_ E']. discriminate E'.
Qed.

Ltac enter_tool :=
  unfold callTool, dispatch;
  cbn [String.eqb Ascii.eqb Bool.eqb andb].

Ltac run_handler :=
  repeat first
    [ progress cbn [bind]
    | match goal with
      | H : parse ?s ?a = _ |- context [parse_or_throw ?s ?a] =>
          unfold parse_or_throw; rewrite H
      | H : ?c = Normal _ |- context [bind ?c _] => rewrite H
      | H : ?c = Throw _ |- context [bind ?c _] => rewrite H
      | H : JS.nullish ?o = false |- context [read ?o ?k] =>
          rewrite (read_not_nullish o k H)
      end ].

Lemma search_people_text (args validated result summary : value) :
  parse SearchPeopleSchema args = Valid validated ->
  searchPeople (search_people_params validated) = Normal result ->
  JS.nullish result = false ->
  top_rows "people" (JS.or_else (JS.prop result "people") (VArray [])) person_row
  = Normal summary ->
  callTool "apollo_search_people" args
  = Returned (text_result
      (headed_text ("Found " ++ to_string (total_entries result) ++ " people")
         "Top Results" summary result)).
Proof.
  intros Hv Hr Hn Hs. enter_tool. unfold apollo_search_people.
  run_handler. reflexivity.
Qed.

Lemma enrich_person_text (args validated result : value) :
  parse EnrichPersonSchema args = Valid validated ->
  enrichPerson (enrich_person_params validated) = Normal result ->
  JS.nullish result = false ->
  JS.truthy (JS.prop result "person") = true ->
  callTool "apollo_enrich_person" args
  = Returned (text_result
      (titled_text "Person Enrichment"
         (person_summary (JS.prop result "person")) result)).
Proof.
  intros Hv Hr Hn Ht. enter_tool. unfold apollo_enrich_person.
  run_handler. rewrite Ht. reflexivity.
Qed.

Lemma enrich_organization_text (args validated result summary : value) :
  parse EnrichOrganizationSchema args = Valid validated ->
  enrichOrganization (JS.prop validated "domain") = Normal result ->
  JS.nullish result = false ->
  JS.truthy (JS.prop result "organization") = true ->
  organization_summary (JS.prop result "organization") = Normal summary ->
  callTool "apollo_enrich_organization" args
  = Returned (text_result (titled_text "Organization Enrichment" summary result)).
Proof.
  intros Hv Hr Hn Ht Hs. enter_tool. unfold apollo_enrich_organization.
  run_handler. rewrite Ht. cbn [negb]. run_handler. reflexivity.
Qed.

Lemma search_organizations_text (args validated result summary : value) :
  parse SearchOrganizationsSchema args = Valid validated ->
  searchOrganizations (search_organizations_params validated) = Normal result ->
  JS.nullish result = false ->
  top_rows "orgs" (JS.or_else (JS.prop result "organizations") (VArray []))
           organization_row
  = Normal summary ->
  callTool "apollo_search_organizations" args
  = Returned (text_result
      (headed_text ("Found " ++ to_string (total_entries result) ++ " organizations")
         "Top Results" summary result)).
Proof.
  intros Hv Hr Hn Hs. enter_tool. unfold apollo_search_organizations.
  run_handler. reflexivity.
Qed.

Lemma search_sequences_text (args validated result summary : value) :
  parse SearchSequencesSchema args = Valid validated ->
  searchSequences (search_sequences_params validated) = Normal result ->
  JS.nullish result = false ->
  let sequences := JS.or_else (JS.prop result "emailer_campaigns") (VArray []) in
  call_map "sequences.map" sequences sequence_row = Normal summary ->
  callTool "apollo_search_sequences" args
  = Returned (text_result
      (headed_text ("Found " ++ to_string (length_of sequences) ++ " sequences")
         "Summary" summary result)).
Proof.
  intros Hv Hr Hn sequences Hs. enter_tool. unfold apollo_search_sequences.
  run_handler. fold sequences. run_handler. reflexivity.
Qed.

Lemma get_email_accounts_text (args result summary : value) :
  getEmailAccounts = Normal result ->
  JS.nullish result = false ->
  let accounts := JS.or_else (JS.prop result "email_accounts") (VArray []) in
  call_map "accounts.map" accounts account_row = Normal summary ->
  callTool "apollo_get_email_accounts" args
  = Returned (text_result
      (headed_text ("Found " ++ to_string (length_of accounts) ++ " email accounts")
         "Accounts" summary result)).
Proof.
  intros Hr Hn accounts Hs. enter_tool. unfold apollo_get_email_accounts.
  run_handler. fold accounts. run_handler. reflexivity.
Qed.

Lemma get_email_message_activities_text (args validated result summary : value) :
  parse GetEmailMessageActivitiesSchema args = Valid validated ->
  getEmailMessageActivities (JS.prop validated "message_id") = Normal result ->
  JS.nullish result = false ->
  activities_summary (JS.prop validated "message_id")
    (JS.or_else (JS.prop result "emailer_touches") (VArray []))
  = Normal summary ->
  callTool "apollo_get_email_message_activities" args
  = Returned (text_result (titled_text "Email Message Activities" summary result)).
Proof.
  intros Hv Hr Hn Hs. enter_tool. unfold apollo_get_email_message_activities.
  run_handler. reflexivity.
Qed.

(** C9 — for every list of message activities that
    [apollo_get_email_message_activities] receives, the tool returns
    its text with a summary whose [total_activities] is the length of
    the list, whose [activities] lists every entry in order (same
    length), and whose [opens], [clicks], [replies] count the entries
    with [touch_type] exactly ["opened"], ["clicked"], ["replied"]:
    their sum is the number of entries with one of these three types,
    hence at most [total_activities], and an entry of any other type
    is listed but counted in none. *)
Theorem C9_activity_counts (args validated result : value) (items : list value) :
  parse GetEmailMessageActivitiesSchema args = Valid validated ->
  getEmailMessageActivities (JS.prop validated "message_id") = Normal result ->
  JS.prop result "emailer_touches" = VArray items ->
  Forall record_like items ->
  let opens := length (filter (has_touch_type "opened") items) in
  let clicks := length (filter (has_touch_type "clicked") items) in
  let replies := length (filter (has_touch_type "replied") items) in
  exists summary,
    callTool "apollo_get_email_message_activities" args
    = Returned (text_result
        (titled_text "Email Message Activities" summary result))
    /\ JS.prop summary "message_id" = JS.prop validated "message_id"
    /\ JS.prop summary "total_activities" = JS.of_nat (length items)
    /\ JS.prop summary "activities" = VArray (map activity_entry items)
    /\ length (map activity_entry items) = length items
    /\ JS.prop summary "opens" = JS.of_nat opens
    /\ JS.prop summary "clicks" = JS.of_nat clicks
    /\ JS.prop summary "replies" = JS.of_nat replies
    /\ (opens + clicks + replies = length (filter counted items))%nat
    /\ (opens + clicks + replies <= length items)%nat.
Proof.
  intros Hv Hr Hp Hrec opens clicks replies.
  destruct (activities_summary_counts (JS.prop validated "message_id") items Hrec)
    as [summary [Hs Hrest]].
  exists summary. split; [|exact Hrest].
  apply (get_email_message_activities_text args validated result summary Hv Hr).
  - destruct result; cbn in Hp; try discriminate Hp; reflexivity.
  - rewrite Hp. exact Hs.
Qed.

(** C4 (as amended) — on a response that is not [null] and from which
    the handler builds its summary, every tool returns one text block.
    For the two searches, the sequence search and the account listing
    it is the status line, a blank line, a header line (["Top
    Results:"], ["Summary:"], ["Accounts:"]), the summary JSON, a blank
    line, the line ["Full data:"] and the JSON of the whole response.
    For the two enrichments and the message activities it is the title
    line, a blank line, the summary JSON directly (no header line), a
    blank line, ["Full data:"] and the JSON of the whole response; no
    status line and header make this the first layout. *)
Theorem C4_rendered_layouts (args validated result summary : value) :
  JS.nullish result = false ->
  let nl := String (ascii_of_nat 10) EmptyString in
  (parse SearchPeopleSchema args = Valid validated ->
   searchPeople (search_people_params validated) = Normal result ->
   top_rows "people" (JS.or_else (JS.prop result "people") (VArray [])) person_row
   = Normal summary ->
   callTool "apollo_search_people" args
   = Returned
       {| content :=
            [ {| type := "text";
                 text := ("Found " ++ to_string (total_entries result) ++ " people")
                         ++ nl ++ nl
                         ++ "Top Results:" ++ nl ++ JSON_stringify summary
                         ++ nl ++ nl
                         ++ "Full data:" ++ nl ++ JSON_stringify result |} ] |})
  /\ (parse SearchOrganizationsSchema args = Valid validated ->
      searchOrganizations (search_organizations_params validated) = Normal result ->
      top_rows "orgs" (JS.or_else (JS.prop result "organizations") (VArray []))
               organization_row
      = Normal summary ->
      callTool "apollo_search_organizations" args
      = Returned
          {| content :=
               [ {| type := "text";
                    text := ("Found " ++ to_string (total_entries result)
                             ++ " organizations")
                            ++ nl ++ nl
                            ++ "Top Results:" ++ nl ++ JSON_stringify summary
                            ++ nl ++ nl
                            ++ "Full data:" ++ nl ++ JSON_stringify result |} ] |})
  /\ (parse SearchSequencesSchema args = Valid validated ->
      searchSequences (search_sequences_params validated) = Normal result ->
      call_map "sequences.map"
               (JS.or_else (JS.prop result "emailer_campaigns") (VArray []))
               sequence_row
      = Normal summary ->
      callTool "apollo_search_sequences" args
      = Returned
          {| content :=
               [ {| type := "text";
                    text := ("Found "
                             ++ to_string
                                  (length_of
                                     (JS.or_else (JS.prop result "emailer_campaigns")
                                                 (VArray [])))
                             ++ " sequences")
                            ++ nl ++ nl
                            ++ "Summary:" ++ nl ++ JSON_stringify summary
                            ++ nl ++ nl
                            ++ "Full data:" ++ nl ++ JSON_stringify result |} ] |})
  /\ (getEmailAccounts = Normal result ->
      call_map "accounts.map"
               (JS.or_else (JS.prop result "email_accounts") (VArray []))
               account_row
      = Normal summary ->
      callTool "apollo_get_email_accounts" args
      = Returned
          {| content :=
               [ {| type := "text";
                    text := ("Found "
                             ++ to_string
                                  (length_of
                                     (JS.or_else (JS.prop result "email_accounts")
                                                 (VArray [])))
                             ++ " email accounts")
                            ++ nl ++ nl
                            ++ "Accounts:" ++ nl ++ JSON_stringify summary
                            ++ nl ++ nl
                            ++ "Full data:" ++ nl ++ JSON_stringify result |} ] |})
  /\ (parse EnrichPersonSchema args = Valid validated ->
      enrichPerson (enrich_person_params validated) = Normal result ->
      JS.truthy (JS.prop result "person") = true ->
      callTool "apollo_enrich_person" args
      = Returned
          {| content :=
               [ {| type := "text";
                    text := "Person Enrichment:" ++ nl ++ nl
                            ++ JSON_stringify (person_summary (JS.prop result "person"))
                            ++ nl ++ nl
                            ++ "Full data:" ++ nl ++ JSON_stringify result |} ] |})
  /\ (parse EnrichOrganizationSchema args = Valid validated ->
      enrichOrganization (JS.prop validated "domain") = Normal result ->
      JS.truthy (JS.prop result "organization") = true ->
      organization_summary (JS.prop result "organization") = Normal summary ->
      callTool "apollo_enrich_organization" args
      = Returned
          {| content :=
               [ {| type := "text";
                    text := "Organization Enrichment:" ++ nl ++ nl
                            ++ JSON_stringify summary
                            ++ nl ++ nl
                            ++ "Full data:" ++ nl ++ JSON_stringify result |} ] |})
  /\ (parse GetEmailMessageActivitiesSchema args = Valid validated ->
      getEmailMessageActivities (JS.prop validated "message_id") = Normal result ->
      activities_summary (JS.prop validated "message_id")
        (JS.or_else (JS.prop result "emailer_touches") (VArray []))
      = Normal summary ->
      callTool "apollo_get_email_message_activities" args
      = Returned
          {| content :=
               [ {| type := "text";
                    text := "Email Message Activities:" ++ nl ++ nl
                            ++ JSON_stringify summary
                            ++ nl ++ nl
                            ++ "Full data:" ++ nl ++ JSON_stringify result |} ] |})
  /\ (forall title status header,
        title ++ ":" ++ nl ++ nl
        ++ JSON_stringify summary ++ nl ++ nl
        ++ "Full data:" ++ nl ++ JSON_stringify result
        <> status ++ nl ++ nl
           ++ header ++ ":" ++ nl ++ JSON_stringify summary ++ nl ++ nl
           ++ "Full data:" ++ nl ++ JSON_stringify result).
Proof.
  intros Hn nl. repeat split; intros.
  - now rewrite (search_people_text args validated result summary).
  - now rewrite (search_organizations_text args validated result summary).
  - now rewrite (search_sequences_text args validated result summary).
  - now rewrite (get_email_accounts_text args result summary).
  - now rewrite (enrich_person_text args validated result).
  - now rewrite (enrich_organization_text args validated result summary).
  - now rewrite (get_email_message_activities_text args validated result summary).
  - exact (titled_text_not_headed title status header summary result).
Qed.

(** C5 (as amended) — when the response of an enrichment call is not
    [null] itself and lacks its [person] / [organization] field, or
    holds a falsy value there, the handler returns normally, and its
    result is the single text block with the fixed not-found sentence
    and nothing else. *)
Theorem C5_enrichment_not_found (args validated result : value) :
  JS.nullish result = false ->
  (parse EnrichPersonSchema args = Valid validated ->
   enrichPerson (enrich_person_params validated) = Normal result ->
   JS.truthy (JS.prop result "person") = false ->
   callTool "apollo_enrich_person" args
   = Returned (text_result "No person found with the provided information."))
  /\ (parse EnrichOrganizationSchema args = Valid validated ->
      enrichOrganization (JS.prop validated "domain") = Normal result ->
      JS.truthy (JS.prop result "organization") = false ->
      callTool "apollo_enrich_organization" args
      = Returned (text_result "No organization found with the provided domain.")).
Proof.
  intros Hn. split; intros Hv Hr Ht; enter_tool.
  - unfold apollo_enrich_person. run_handler. rewrite Ht. reflexivity.
  - unfold apollo_enrich_organization. run_handler. rewrite Ht. reflexivity.
Qed.

(** ** Errors *)

Lemma dispatch_unknown (name : string) (args : value) :
  ~ In name tool_names ->
  dispatch name args
  = Throw (McpErrorThrown
             {| code := MethodNotFound; message := "Unknown tool: " ++ name |}).
Proof.
  intros Hn. unfold dispatch.
  repeat match goal with
         | |- context [name =? ?t] =>
             let E := fresh "E" in
             destruct (name =? t) eqn:E;
             [ apply String.eqb_eq in E; exfalso; apply Hn; subst name;
               simpl; tauto | ]
         end.
  reflexivity.
Qed.

(** C1 — a name outside the catalog makes the [default] case throw the
    "method not found" error that names the tool, but that error is
    thrown inside the [try]: the [catch] block, which lets no
    [McpError] through, turns it into an internal error built from its
    message.  What the caller receives has code [InternalError], never
    [MethodNotFound]. *)
Theorem C1_unknown_tool_reported_as_internal_error (name : string) (args : value) :
  ~ In name tool_names ->
  callTool name args
  = Rejected
      {| code := InternalError;
         message := message_or_default
                      (McpError_message
                         {| code := MethodNotFound;
                            message := "Unknown tool: " ++ name |}) |}
  /\ forall text,
       callTool name args <> Rejected {| code := MethodNotFound; message := text |}.
Proof.
  intros Hn. unfold callTool. rewrite (dispatch_unknown _ _ Hn).
  split; [reflexivity|]. intros text H. discriminate H.
Qed.

(** Whatever is thrown inside the [try] is classified in the order
    of the [catch] block; the record below holds the code and the
    message text the handler constructs the [McpError] with. *)
Lemma thrown_errors_classified (name : string) (args : value) (error : exn) :
  dispatch name args = Throw error ->
  (forall errors,
     error = ZodError errors ->
     callTool name args
     = Rejected {| code := InvalidParams;
                   message := "Invalid parameters: "
                              ++ JS.join ", " (map Zod.message errors) |})
  /\ (forall error_message,
        error = RequestError (Some 401%Z) error_message ->
        callTool name args
        = Rejected {| code := InvalidRequest;
                      message := "Invalid Apollo API key. "
                                 ++ "Check your APOLLO_API_KEY environment variable." |})
  /\ (forall error_message,
        error = RequestError (Some 429%Z) error_message ->
        callTool name args
        = Rejected {| code := InternalError;
                      message := "Apollo API rate limit exceeded. "
                                 ++ "Please wait and try again." |})
  /\ (forall response_status error_message,
        error = RequestError response_status error_message ->
        response_status <> Some 401%Z ->
        response_status <> Some 429%Z ->
        callTool name args
        = Rejected {| code := InternalError;
                      message := if error_message =? ""
                                 then "An unexpected error occurred"
                                 else error_message |})
  /\ (forall error_message,
        error = TypeError error_message ->
        callTool name args
        = Rejected {| code := InternalError;
                      message := if error_message =? ""
                                 then "An unexpected error occurred"
                                 else error_message |})
  /\ (forall e,
        error = McpErrorThrown e ->
        callTool name args
        = Rejected {| code := InternalError;
                      message := if McpError_message e =? ""
                                 then "An unexpected error occurred"
                                 else McpError_message e |}).
Proof.
  intros Hd. unfold callTool. rewrite Hd.
  repeat split; intros; subst error; try reflexivity.
  cbn [catch_block].
  assert (H401 : status_is response_status 401 = false).
  { destruct response_status as [s|]; [|reflexivity]. simpl.
    apply Z.eqb_neq. intros ->. now apply H0. }
  assert (H429 : status_is response_status 429 = false).
  { destruct response_status as [s|]; [|reflexivity]. simpl.
    apply Z.eqb_neq. intros ->. now apply H1. }
  rewrite H401, H429. reflexivity.
Qed.

(** ** Further properties: validation *)

Lemma EnrichOrganizationSchema_keys :
  NoDup (map fst (shape_of EnrichOrganizationSchema)).
Proof. distinct_keys. Qed.

Lemma GetEmailMessageActivitiesSchema_keys :
  NoDup (map fst (shape_of GetEmailMessageActivitiesSchema)).
Proof. distinct_keys. Qed.

(** Case analysis on the tool a (name, validator) pair belongs to. *)
Ltac each_tool H :=
  cbn in H;
  repeat (destruct H as [H | H];
          [ first [ discriminate H
                  | injection H as <- <- ] | ]);
  try contradiction.

Lemma tool_schema_object (name : string) (schema : ZodSchema) :
  In (name, Some schema) tool_schemas ->
  schema = ZObject (shape_of schema)
  /\ NoDup (map fst (shape_of schema))
  /\ Forall (fun entry => In (snd entry) leaf_schemas) (shape_of schema).
Proof.
  intros H. each_tool H.
  all: split; [reflexivity|]; split; [distinct_keys|].
  all: cbn [shape_of]; repeat (apply Forall_cons; [in_list|]); apply Forall_nil.
Qed.

(** Validation looks at the declared keys only. *)
Lemma parse_object_agree (shape : list (string * ZodSchema))
      (props1 props2 : list (string * value)) :
  (forall k, In k (map fst shape) -> JS.lookup k props1 = JS.lookup k props2) ->
  parse (ZObject shape) (VObject props1) = parse (ZObject shape) (VObject props2).
Proof.
  intros H. rewrite !parse_object. f_equal.
  unfold object_pairs. apply map_ext_in. intros [k s] Hin.
  cbn [JS.has_key JS.prop].
  rewrite (H k); [reflexivity|].
  apply (in_map fst) in Hin. exact Hin.
Qed.

Lemma parse_object_keys (shape : list (string * ZodSchema))
      (props : list (string * value)) (validated : value) (k : string) :
  parse (ZObject shape) (VObject props) = Valid validated ->
  JS.has_key k validated = true ->
  In k (map fst shape).
Proof.
  intros Hp Hk. rewrite parse_object in Hp. unfold merge_object in Hp.
  destruct (forallb _ _); [|discriminate].
  injection Hp as <-.
  fold (output_entries (object_pairs shape (VObject props))) in Hk.
  destruct (in_dec string_dec k (map fst shape)) as [Hin | Hout]; [exact Hin|].
  rewrite <- (object_pairs_keys shape (VObject props)) in Hout.
  cbn [JS.has_key] in Hk.
  rewrite (lookup_output_entries_absent _ _ Hout) in Hk. discriminate Hk.
Qed.

Lemma dispatch_parses (name : string) (schema : ZodSchema) (args1 args2 : value) :
  In (name, Some schema) tool_schemas ->
  parse schema args1 = parse schema args2 ->
  dispatch name args1 = dispatch name args2.
Proof.
  intros H Hp. each_tool H.
  all: unfold dispatch; cbn [String.eqb Ascii.eqb Bool.eqb andb].
  - unfold apollo_search_people, parse_or_throw. now rewrite Hp.
  - unfold apollo_enrich_person, parse_or_throw. now rewrite Hp.
  - unfold apollo_enrich_organization, parse_or_throw. now rewrite Hp.
  - unfold apollo_search_organizations, parse_or_throw. now rewrite Hp.
  - unfold apollo_search_sequences, parse_or_throw. now rewrite Hp.
  - unfold apollo_get_email_message_activities, parse_or_throw. now rewrite Hp.
Qed.

(** X1 — the validators are open: keys that a tool's schema does not
    declare change neither the outcome of validation nor what the tool
    call settles with, and they never appear in the validated
    arguments. *)
Theorem unknown_arguments_ignored
        (name : string) (schema : ZodSchema) (props1 props2 : list (string * value)) :
  In (name, Some schema) tool_schemas ->
  (forall k, In k (map fst (shape_of schema)) ->
             JS.lookup k props1 = JS.lookup k props2) ->
  parse schema (VObject props1) = parse schema (VObject props2)
  /\ callTool name (VObject props1) = callTool name (VObject props2)
  /\ forall validated k,
       parse schema (VObject props1) = Valid validated ->
       JS.has_key k validated = true ->
       In k (map fst (shape_of schema)).
Proof.
  intros Htool Hagree.
  destruct (tool_schema_object _ _ Htool) as [Hs _].
  assert (Hp : parse schema (VObject props1) = parse schema (VObject props2)).
  { rewrite Hs. apply parse_object_agree. exact Hagree. }
  split; [exact Hp|]. split.
  - unfold callTool. now rewrite (dispatch_parses _ _ _ _ Htool Hp).
  - intros validated k Hv Hk. rewrite Hs in Hv.
    exact (parse_object_keys _ _ _ _ Hv Hk).
Qed.

(** *** Validating twice *)

Lemma output_entries_pairs (shape : list (string * ZodSchema)) (data : value) :
  output_entries (object_pairs shape data)
  = flat_map (fun entry : string * ZodSchema =>
                output_entry (fst entry) (JS.has_key (fst entry) data)
                             (output_of (parse (snd entry) (JS.prop data (fst entry)))))
             shape.
Proof.
  unfold output_entries, object_pairs.
  induction shape as [|[k s] rest IH]; [reflexivity|].
  cbn [map flat_map fst snd]. now rewrite IH.
Qed.

Lemma flat_map_agree {A B : Type} (f g : A -> list B) (l : list A) :
  (forall a, In a l -> f a = g a) -> flat_map f l = flat_map g l.
Proof.
  induction l as [|a rest IH]; intros H; [reflexivity|].
  cbn [flat_map]. rewrite (H a (or_introl eq_refl)), IH; [reflexivity|].
  intros b Hb. apply H. right. exact Hb.
Qed.

Lemma lookup_output_entries_exact (k : string) (b : bool) (r : ParseResult)
      (pairs : list (string * bool * ParseResult)) :
  NoDup (map (fun p => fst (fst p)) pairs) ->
  In (k, b, r) pairs ->
  JS.lookup k (output_entries pairs) = JS.lookup k (output_entry k b (output_of r)).
Proof.
  induction pairs as [|[[k0 b0] r0] rest IH]; intros Hnd Hin; [contradiction|].
  cbn [map fst] in Hnd. inversion Hnd as [|? ? Hk0 Hrest]; subst.
  unfold output_entries. cbn [flat_map fst snd]. fold (output_entries rest).
  destruct Hin as [Heq | Hin].
  - injection Heq as -> -> ->.
    pose proof (lookup_output_entries_absent k rest Hk0) as Habs.
    unfold output_entry.
    destruct (output_of r), b; cbn [app JS.lookup]; rewrite ?String.eqb_refl;
      try reflexivity; exact Habs.
  - assert (E : (k0 =? k) = false).
    { apply String.eqb_neq. intros ->. apply Hk0.
      apply (in_map (fun p => fst (fst p))) in Hin. exact Hin. }
    rewrite <- (IH Hrest Hin).
    unfold output_entry at 1.
    destruct (output_of r0), b0; cbn [app JS.lookup]; rewrite ?E; reflexivity.
Qed.

(** An object schema whose fields return what they accept unchanged
    on a second pass does so itself. *)
Lemma object_idempotent (shape : list (string * ZodSchema)) (args validated : value) :
  NoDup (map fst shape) ->
  (forall k s, In (k, s) shape ->
     forall x v, parse s x = Valid v -> parse s v = Valid v) ->
  parse (ZObject shape) args = Valid validated ->
  parse (ZObject shape) validated = Valid validated.
Proof.
  intros Hnd Hfields Hp.
  destruct (parse_object_inv _ _ _ Hp) as [props ->].
  pose proof Hp as Hp0.
  rewrite parse_object in Hp. unfold merge_object in Hp.
  destruct (forallb _ _) eqn:Hall; [|discriminate].
  injection Hp as <-.
  fold (output_entries (object_pairs shape (VObject props))).
  set (out := output_entries (object_pairs shape (VObject props))) in *.
  assert (Hfield : forall k s, In (k, s) shape ->
            parse s (JS.prop (VObject out) k) = Valid (JS.prop (VObject out) k)
            /\ parse s (JS.prop (VObject props) k) = Valid (JS.prop (VObject out) k)).
  { intros k s Hin.
    pose proof (parse_object_prop shape props (VObject out) k s Hnd Hin Hp0) as H1.
    split; [exact (Hfields k s Hin _ _ H1) | exact H1]. }
  rewrite parse_object. unfold merge_object.
  rewrite forallb_object_pairs.
  assert (Hvalid : fields_valid shape (VObject out) = true).
  { unfold fields_valid. apply forallb_forall. intros [k s] Hin. cbn [fst snd].
    destruct (Hfield k s Hin) as [H1 _]. now rewrite H1. }
  rewrite Hvalid. f_equal. f_equal.
  fold (output_entries (object_pairs shape (VObject out))).
  rewrite output_entries_pairs.
  unfold out at 3. rewrite output_entries_pairs.
  apply flat_map_agree. intros [k s] Hin. cbn [fst snd].
  destruct (Hfield k s Hin) as [H1 H2]. rewrite H1, H2. cbn [output_of].
  assert (Hlook : JS.lookup k out
                  = JS.lookup k (output_entry k (JS.has_key k (VObject props))
                                              (JS.prop (VObject out) k))).
  { unfold out at 1.
    rewrite (lookup_output_entries_exact k (JS.has_key k (VObject props))
               (parse s (JS.prop (VObject props) k))).
    - rewrite H2. reflexivity.
    - rewrite object_pairs_keys. exact Hnd.
    - unfold object_pairs.
      apply (in_map (fun entry : string * ZodSchema =>
                       match entry with
                       | (key, s0) =>
                           (key, JS.has_key key (VObject props),
                             parse s0 (JS.prop (VObject props) key))
                       end)) in Hin. exact Hin. }
  unfold output_entry.
  destruct (JS.prop (VObject out) k) eqn:Ev; try reflexivity.
  assert (Hk : JS.has_key k (VObject out) = JS.has_key k (VObject props)).
  { unfold JS.has_key at 1. rewrite Hlook. unfold output_entry.
    destruct (JS.has_key k (VObject props)); cbn [JS.lookup];
      rewrite ?String.eqb_refl; reflexivity. }
  rewrite Hk. reflexivity.
Qed.

Lemma leaf_idempotent (s : ZodSchema) (x v : value) :
  In s leaf_schemas -> parse s x = Valid v -> parse s v = Valid v.
Proof.
  intros Hs Hp. cbn in Hs.
  destruct Hs as [<- | [<- | [<- | [<- | [<- | [<- | []]]]]]].
  - destruct (parse_string_inv _ _ Hp) as [-> _]. exact Hp.
  - destruct (parse_optional_string_inv _ _ Hp) as [-> _]. exact Hp.
  - destruct (parse_optional_strings_inv _ _ Hp) as [-> _]. exact Hp.
  - destruct x; try discriminate Hp; injection Hp as <-; reflexivity.
  - destruct x; try discriminate Hp; injection Hp as <-; reflexivity.
  - destruct x; try discriminate Hp; injection Hp as <-; reflexivity.
Qed.

(** X2 — validation is idempotent: the validated arguments of every
    tool pass the tool's validator again, and come out unchanged
    (defaults included). *)
Theorem validation_idempotent (name : string) (schema : ZodSchema)
        (args validated : value) :
  In (name, Some schema) tool_schemas ->
  parse schema args = Valid validated ->
  parse schema validated = Valid validated.
Proof.
  intros Htool Hp.
  destruct (tool_schema_object _ _ Htool) as [Hs [Hnd Hleaf]].
  rewrite Hs in Hp |- *.
  apply (object_idempotent _ args); [exact Hnd | | exact Hp].
  intros k s Hin x v Hx.
  rewrite Forall_forall in Hleaf.
  exact (leaf_idempotent s x v (Hleaf _ Hin) Hx).
Qed.

(** *** Rejected arguments *)





Lemma dispatch_invalid (name : string) (schema : ZodSchema) (args : value)
      (issues : list ZodIssue) :
  In (name, Some schema) tool_schemas ->
  parse schema args = Invalid issues ->
  dispatch name args = Throw (ZodError issues).
Proof.
  intros H Hp. each_tool H.
  all: unfold dispatch; cbn [String.eqb Ascii.eqb Bool.eqb andb].
  - unfold apollo_search_people, parse_or_throw. now rewrite Hp.
  - unfold apollo_enrich_person, parse_or_throw. now rewrite Hp.
  - unfold apollo_enrich_organization, parse_or_throw. now rewrite Hp.
  - unfold apollo_search_organizations, parse_or_throw. now rewrite Hp.
  - unfold apollo_search_sequences, parse_or_throw. now rewrite Hp.
  - unfold apollo_get_email_message_activities, parse_or_throw. now rewrite Hp.
Qed.


(** X4 — a call without an argument object (no [arguments] at all,
    [null], an array, a string, ...) is rejected by every tool that
    validates: with the single issue ["Required"] when the arguments
    are missing, and with the type it received otherwise. *)
Theorem missing_arguments_rejected (name : string) (schema : ZodSchema) (args : value) :
  In (name, Some schema) tool_schemas ->
  (forall props, args <> VObject props) ->
  callTool name args
  = Rejected {| code := InvalidParams;
                message := "Invalid parameters: " ++ not_an_object args |}.
Proof.
  intros Htool Hargs.
  destruct (tool_schema_object _ _ Htool) as [Hs _].
  assert (Hp : parse schema args
               = Invalid [ {| Zod.message := not_an_object args |} ]).
  { rewrite Hs. destruct args; try reflexivity. now contradiction (Hargs props). }
  unfold callTool. rewrite (dispatch_invalid _ _ _ _ Htool Hp). reflexivity.
Qed.



(** ** Further properties: requests *)

Lemma copy_all_has_key (validated : value) (renames : list (string * string))
      (props : list (string * value)) (k : string) :
  JS.has_key k (copy_all validated renames (VObject props)) = true ->
  JS.has_key k (VObject props) = true \/ In k (map snd renames).
Proof.
  intros Hk.
  destruct (in_dec string_dec k (map snd renames)) as [Hin | Hout]; [right; exact Hin|].
  left. destruct (copy_all_other validated renames props k Hout) as [_ Hh].
  now rewrite <- Hh.
Qed.

(** X6 — a request body holds nothing but the pagination keys of its
    tool ([page] and [per_page] for the three searches, none for the
    person enrichment) and the names the tool's filters are copied
    under: no other key of the arguments is ever forwarded. *)
Theorem request_has_only_declared_fields
        (schema : ZodSchema) (build : value -> value) (renames : list (string * string))
        (validated : value) (k : string) :
  In (schema, build, renames) mapped_tools ->
  JS.has_key k (build validated) = true ->
  In k (request_fields schema renames).
Proof.
  intros Htool Hk. cbn in Htool.
  destruct Htool as [E | [E | [E | [E | []]]]]; injection E as <- <- <-.
  - change (search_people_params validated)
      with (copy_all validated search_people_renames (paged_params validated)) in Hk.
    apply copy_all_has_key in Hk. destruct Hk as [Hk | Hk].
    + unfold paged_params in Hk. cbn [JS.has_key JS.lookup] in Hk.
      destruct ("page" =? k) eqn:E1; [apply String.eqb_eq in E1; cbn; tauto|].
      destruct ("per_page" =? k) eqn:E2; [apply String.eqb_eq in E2; cbn; tauto|].
      discriminate Hk.
    + unfold request_fields. apply in_or_app. right. exact Hk.
  - change (enrich_person_params validated)
      with (copy_all validated enrich_person_renames (VObject [])) in Hk.
    apply copy_all_has_key in Hk. destruct Hk as [Hk | Hk].
    + discriminate Hk.
    + unfold request_fields. apply in_or_app. right. exact Hk.
  - change (search_organizations_params validated)
      with (copy_all validated search_organizations_renames (paged_params validated))
      in Hk.
    apply copy_all_has_key in Hk. destruct Hk as [Hk | Hk].
    + unfold paged_params in Hk. cbn [JS.has_key JS.lookup] in Hk.
      destruct ("page" =? k) eqn:E1; [apply String.eqb_eq in E1; cbn; tauto|].
      destruct ("per_page" =? k) eqn:E2; [apply String.eqb_eq in E2; cbn; tauto|].
      discriminate Hk.
    + unfold request_fields. apply in_or_app. right. exact Hk.
  - change (search_sequences_params validated)
      with (copy_all validated search_sequences_renames (paged_params validated)) in Hk.
    apply copy_all_has_key in Hk. destruct Hk as [Hk | Hk].
    + unfold paged_params in Hk. cbn [JS.has_key JS.lookup] in Hk.
      destruct ("page" =? k) eqn:E1; [apply String.eqb_eq in E1; cbn; tauto|].
      destruct ("per_page" =? k) eqn:E2; [apply String.eqb_eq in E2; cbn; tauto|].
      discriminate Hk.
    + unfold request_fields. apply in_or_app. right. exact Hk.
Qed.

Lemma parse_paging_inv (d : Q) (x v : value) :
  parse (paging d) x = Valid v -> exists q, v = VNumber q.
Proof.
  destruct x; cbn; try discriminate; intros H; injection H as <-; eexists; reflexivity.
Qed.

(** X7 — whatever arguments validate, the body of a search request
    carries both [page] and [per_page], and both are numbers: the ones
    given or the defaults, never left out. *)
Theorem search_request_is_paged
        (schema : ZodSchema) (build : value -> value) (args validated : value) :
  In (schema, build) search_tools ->
  parse schema args = Valid validated ->
  exists page per_page,
    JS.prop (build validated) "page" = VNumber page
    /\ JS.prop (build validated) "per_page" = VNumber per_page
    /\ JS.prop validated "page" = VNumber page
    /\ JS.prop validated "per_page" = VNumber per_page.
Proof.
  intros Htool Hv.
  destruct (parse_object_inv (shape_of schema) args validated) as [props ->].
  { cbn in Htool. destruct Htool as [E | [E | [E | []]]]; injection E as <- <-; exact Hv. }
  assert (Hnum : exists page per_page,
             JS.prop validated "page" = VNumber page
             /\ JS.prop validated "per_page" = VNumber per_page).
  { cbn in Htool. destruct Htool as [E | [E | [E | []]]]; injection E as <- <-.
    - pose proof (parse_object_prop (shape_of SearchPeopleSchema) props validated
                    "page" (paging 1) SearchPeopleSchema_keys ltac:(in_list) Hv) as H1.
      pose proof (parse_object_prop (shape_of SearchPeopleSchema) props validated
                    "per_page" (paging 10) SearchPeopleSchema_keys ltac:(in_list) Hv)
        as H2.
      apply parse_paging_inv in H1, H2. destruct H1 as [p ->], H2 as [pp ->].
      eexists; eexists; split; reflexivity.
    - pose proof (parse_object_prop (shape_of SearchOrganizationsSchema) props validated
                    "page" (paging 1) SearchOrganizationsSchema_keys ltac:(in_list) Hv)
        as H1.
      pose proof (parse_object_prop (shape_of SearchOrganizationsSchema) props validated
                    "per_page" (paging 10) SearchOrganizationsSchema_keys
                    ltac:(in_list) Hv) as H2.
      apply parse_paging_inv in H1, H2. destruct H1 as [p ->], H2 as [pp ->].
      eexists; eexists; split; reflexivity.
    - pose proof (parse_object_prop (shape_of SearchSequencesSchema) props validated
                    "page" (paging 1) SearchSequencesSchema_keys ltac:(in_list) Hv) as H1.
      pose proof (parse_object_prop (shape_of SearchSequencesSchema) props validated
                    "per_page" (paging 25) SearchSequencesSchema_keys ltac:(in_list) Hv)
        as H2.
      apply parse_paging_inv in H1, H2. destruct H1 as [p ->], H2 as [pp ->].
      eexists; eexists; split; reflexivity. }
  destruct Hnum as [page [per_page [Hp Hpp]]].
  exists page, per_page.
  assert (Hb : (forall k, k = "page" \/ k = "per_page" ->
                  JS.prop (build validated) k = JS.prop validated k)).
  { intros k Hk. cbn in Htool.
    destruct Htool as [E | [E | [E | []]]]; injection E as <- <-.
    - change (search_people_params validated)
        with (copy_all validated search_people_renames (paged_params validated)).
      unfold paged_params.
      rewrite (proj1 (copy_all_other validated search_people_renames _ k
                        ltac:(destruct Hk as [-> | ->]; not_in_list))).
      destruct Hk as [-> | ->]; reflexivity.
    - change (search_organizations_params validated)
        with (copy_all validated search_organizations_renames (paged_params validated)).
      unfold paged_params.
      rewrite (proj1 (copy_all_other validated search_organizations_renames _ k
                        ltac:(destruct Hk as [-> | ->]; not_in_list))).
      destruct Hk as [-> | ->]; reflexivity.
    - change (search_sequences_params validated)
        with (copy_all validated search_sequences_renames (paged_params validated)).
      unfold paged_params.
      rewrite (proj1 (copy_all_other validated search_sequences_renames _ k
                        ltac:(destruct Hk as [-> | ->]; not_in_list))).
      destruct Hk as [-> | ->]; reflexivity. }
  rewrite (Hb "page" (or_introl eq_refl)), (Hb "per_page" (or_intror eq_refl)).
  repeat split; assumption.
Qed.

(** ** Further properties: summaries *)

Lemma map_each_entries (row : value -> completion value) (entry : value -> value)
      (items : list value) :
  (forall x, record_like x -> row x = Normal (entry x)) ->
  Forall record_like items ->
  map_each row items = Normal (map entry items).
Proof.
  intros Hrow. induction 1 as [|x rest Hx _ IH]; [reflexivity|].
  cbn [map_each map]. rewrite (Hrow x Hx). cbn [bind]. rewrite IH. reflexivity.
Qed.

Lemma person_row_entry (p : value) :
  record_like p -> person_row p = Normal (person_entry p).
Proof. intros H. unfold person_row. now rewrite (read_not_nullish _ _ H). Qed.

Lemma organization_row_entry (o : value) :
  record_like o -> organization_row o = Normal (organization_entry o).
Proof. intros H. unfold organization_row. now rewrite (read_not_nullish _ _ H). Qed.

Lemma sequence_row_entry (s : value) :
  record_like s -> sequence_row s = Normal (sequence_entry s).
Proof. intros H. unfold sequence_row. now rewrite (read_not_nullish _ _ H). Qed.

Lemma account_row_entry (a : value) :
  record_like a -> account_row a = Normal (account_entry a).
Proof. intros H. unfold account_row. now rewrite (read_not_nullish _ _ H). Qed.

Lemma prop_array_not_nullish (result : value) (k : string) (items : list value) :
  JS.prop result k = VArray items -> JS.nullish result = false.
Proof. destruct result; cbn; try discriminate; reflexivity. Qed.

(** X8 — the two searches summarise the first five results only, in
    their order: entries after the fifth are neither listed nor even
    looked at (they need not be records), and the summary never has
    more than five rows, however many results the response holds. *)
Theorem search_summaries_first_five (args validated result : value)
        (items : list value) :
  Forall record_like (firstn 5 items) ->
  (parse SearchPeopleSchema args = Valid validated ->
   searchPeople (search_people_params validated) = Normal result ->
   JS.prop result "people" = VArray items ->
   callTool "apollo_search_people" args
   = Returned (text_result
       (headed_text ("Found " ++ to_string (total_entries result) ++ " people")
          "Top Results" (VArray (map person_entry (firstn 5 items))) result)))
  /\ (parse SearchOrganizationsSchema args = Valid validated ->
      searchOrganizations (search_organizations_params validated) = Normal result ->
      JS.prop result "organizations" = VArray items ->
      callTool "apollo_search_organizations" args
      = Returned (text_result
          (headed_text ("Found " ++ to_string (total_entries result) ++ " organizations")
             "Top Results" (VArray (map organization_entry (firstn 5 items))) result)))
  /\ (length (firstn 5 items) <= 5)%nat.
Proof.
  intros Hrec. split; [|split].
  - intros Hv Hr Hp.
    apply (search_people_text args validated result); try assumption.
    + exact (prop_array_not_nullish _ _ _ Hp).
    + rewrite Hp. unfold top_rows. cbn [JS.or_else JS.truthy call_slice bind call_map].
      rewrite (map_each_entries _ _ _ person_row_entry Hrec). reflexivity.
  - intros Hv Hr Hp.
    apply (search_organizations_text args validated result); try assumption.
    + exact (prop_array_not_nullish _ _ _ Hp).
    + rewrite Hp. unfold top_rows. cbn [JS.or_else JS.truthy call_slice bind call_map].
      rewrite (map_each_entries _ _ _ organization_row_entry Hrec). reflexivity.
  - apply firstn_le_length.
Qed.

(** X9 — the sequence search and the account listing summarise every
    entry, without a cap, and the number in their first line is the
    number of rows of the summary. *)
Theorem listings_count_their_rows (args validated result : value)
        (items : list value) :
  Forall record_like items ->
  (parse SearchSequencesSchema args = Valid validated ->
   searchSequences (search_sequences_params validated) = Normal result ->
   JS.prop result "emailer_campaigns" = VArray items ->
   callTool "apollo_search_sequences" args
   = Returned (text_result
       (headed_text
          ("Found " ++ number_to_string (inject_Z (Z.of_nat (length items)))
           ++ " sequences")
          "Summary" (VArray (map sequence_entry items)) result)))
  /\ (getEmailAccounts = Normal result ->
      JS.prop result "email_accounts" = VArray items ->
      callTool "apollo_get_email_accounts" args
      = Returned (text_result
          (headed_text
             ("Found " ++ number_to_string (inject_Z (Z.of_nat (length items)))
              ++ " email accounts")
             "Accounts" (VArray (map account_entry items)) result)))
  /\ length (map sequence_entry items) = length items
  /\ length (map account_entry items) = length items.
Proof.
  intros Hrec. split; [|split; [|split]].
  - intros Hv Hr Hp.
    rewrite (search_sequences_text args validated result
               (VArray (map sequence_entry items)) Hv Hr
               (prop_array_not_nullish _ _ _ Hp)).
    + rewrite Hp. reflexivity.
    + rewrite Hp. cbn [JS.or_else JS.truthy call_map].
      rewrite (map_each_entries _ _ _ sequence_row_entry Hrec). reflexivity.
  - intros Hr Hp.
    rewrite (get_email_accounts_text args result
               (VArray (map account_entry items)) Hr
               (prop_array_not_nullish _ _ _ Hp)).
    + rewrite Hp. reflexivity.
    + rewrite Hp. cbn [JS.or_else JS.truthy call_map].
      rewrite (map_each_entries _ _ _ account_row_entry Hrec). reflexivity.
  - apply length_map.
  - apply length_map.
Qed.

(** X10 — a response (not [null]) that lacks its list, or holds a
    falsy value there, is an empty result and not an error: the four
    list tools return an empty summary, rendered as [[]], and the
    searches count zero entries when [pagination] is missing too. *)
Theorem missing_list_is_empty (args validated result : value) :
  JS.nullish result = false ->
  (parse SearchPeopleSchema args = Valid validated ->
   searchPeople (search_people_params validated) = Normal result ->
   JS.truthy (JS.prop result "people") = false ->
   callTool "apollo_search_people" args
   = Returned (text_result
       (headed_text ("Found " ++ to_string (total_entries result) ++ " people")
          "Top Results" (VArray []) result)))
  /\ (parse SearchOrganizationsSchema args = Valid validated ->
      searchOrganizations (search_organizations_params validated) = Normal result ->
      JS.truthy (JS.prop result "organizations") = false ->
      callTool "apollo_search_organizations" args
      = Returned (text_result
          (headed_text ("Found " ++ to_string (total_entries result) ++ " organizations")
             "Top Results" (VArray []) result)))
  /\ (parse SearchSequencesSchema args = Valid validated ->
      searchSequences (search_sequences_params validated) = Normal result ->
      JS.truthy (JS.prop result "emailer_campaigns") = false ->
      callTool "apollo_search_sequences" args
      = Returned (text_result
          (headed_text ("Found " ++ number_to_string 0 ++ " sequences")
             "Summary" (VArray []) result)))
  /\ (getEmailAccounts = Normal result ->
      JS.truthy (JS.prop result "email_accounts") = false ->
      callTool "apollo_get_email_accounts" args
      = Returned (text_result
          (headed_text ("Found " ++ number_to_string 0 ++ " email accounts")
             "Accounts" (VArray []) result)))
  /\ JSON_stringify (VArray []) = "[]"
  /\ (JS.nullish (JS.prop result "pagination") = true ->
      to_string (total_entries result) = number_to_string 0).
Proof.
  intros Hn. repeat split.
  - intros Hv Hr Hf.
    apply (search_people_text args validated result); try assumption.
    unfold JS.or_else. rewrite Hf. reflexivity.
  - intros Hv Hr Hf.
    apply (search_organizations_text args validated result); try assumption.
    unfold JS.or_else. rewrite Hf. reflexivity.
  - intros Hv Hr Hf.
    rewrite (search_sequences_text args validated result (VArray []) Hv Hr Hn).
    + unfold JS.or_else. rewrite Hf. reflexivity.
    + unfold JS.or_else. rewrite Hf. reflexivity.
  - intros Hr Hf.
    rewrite (get_email_accounts_text args result (VArray []) Hr Hn).
    + unfold JS.or_else. rewrite Hf. reflexivity.
    + unfold JS.or_else. rewrite Hf. reflexivity.
  - intros Hp. unfold total_entries, JS.opt_prop. rewrite Hp. reflexivity.
Qed.

(** ** Further properties: failures *)

(** X11 — a response body that is [null] is no result for any tool:
    the first property the handler reads off it throws, and the call
    is rejected with an internal error (carrying the engine's message
    for that read). *)
Theorem null_response_is_internal_error
        (name : string) (schema : option ZodSchema) (args validated : value)
        (request : Request) :
  In (name, schema) tool_schemas ->
  validates schema args validated ->
  tool_request name validated = Some request ->
  api request = Normal VNull ->
  exists text,
    callTool name args = Rejected {| code := InternalError; message := text |}.
Proof.
  intros Htool Hv Hreq Hnull.
  enough (H : exists field,
            callTool name args
            = Rejected {| code := InternalError;
                          message := "Cannot read properties of null (reading '"
                                     ++ field ++ "')" |})
    by (destruct H as [field H]; eexists; exact H).
  each_tool Htool; cbn [validates] in Hv.
  all: unfold tool_request in Hreq;
    cbn [String.eqb Ascii.eqb Bool.eqb andb] in Hreq;
    injection Hreq as <-; enter_tool.
  - exists "people". unfold apollo_search_people, searchPeople.
    run_handler. reflexivity.
  - exists "person". unfold apollo_enrich_person, enrichPerson.
    run_handler. reflexivity.
  - exists "organization". unfold apollo_enrich_organization, enrichOrganization.
    run_handler. reflexivity.
  - exists "organizations". unfold apollo_search_organizations, searchOrganizations.
    run_handler. reflexivity.
  - exists "emailer_campaigns". unfold apollo_search_sequences, searchSequences.
    run_handler. cbn [JS.or_else JS.truthy search_sequences_params].
    unfold search_sequences_params, paged_params, copy_if_truthy in *.
    destruct (JS.truthy (JS.prop validated "name"));
      cbn [JS.set_prop JS.or_else JS.truthy] in *; rewrite Hnull; reflexivity.
  - exists "email_accounts". unfold apollo_get_email_accounts, getEmailAccounts.
    run_handler. reflexivity.
  - exists "emailer_touches".
    unfold apollo_get_email_message_activities, getEmailMessageActivities.
    change (api {| method := GET;
                   url := "/emailer_messages/"
                          ++ to_string (JS.prop validated "message_id")
                          ++ "/activities";
                   data := VUndefined |} = Normal VNull) in Hnull.
    run_handler. reflexivity.
Qed.

(** X12 — no rejection is anonymous, and none is a "method not found":
    whatever the tool, the arguments and the API's answer, a rejected
    call carries a non-empty message, and its code is one of invalid
    parameters, invalid request and internal error. *)
Theorem rejections_carry_a_message (name : string) (args : value) (e : McpError) :
  callTool name args = Rejected e ->
  message e <> "" /\ code e <> MethodNotFound.
Proof.
  unfold callTool. destruct (dispatch name args) as [r | error]; [discriminate|].
  intros H. injection H as <-.
  assert (Hdef : forall m, message (internal_error m) <> "").
  { intros m. unfold internal_error, message_or_default. cbn [message].
    destruct (m =? "") eqn:E; [discriminate|]. now apply String.eqb_neq. }
  destruct error as [errors | e' | status m | m]; cbn [catch_block].
  - split; discriminate.
  - split; [apply Hdef | discriminate].
  - destruct (status_is status 401); [split; discriminate|].
    destruct (status_is status 429); [split; discriminate|].
    split; [apply Hdef | discriminate].
  - split; [apply Hdef | discriminate].
Qed.

(** *** Which names reach the [default] case *)

Lemma no_McpError_Normal {A : Type} (a : A) : no_McpError (Normal a).
Proof. intros e H. discriminate H. Qed.

Lemma no_McpError_bind {A B : Type} (c : completion A) (k : A -> completion B) :
  no_McpError c -> (forall a, no_McpError (k a)) -> no_McpError (bind c k).
Proof.
  intros Hc Hk e. destruct c as [a | e']; cbn [bind].
  - apply Hk.
  - intros H. injection H as ->. now apply (Hc e).
Qed.

Lemma no_McpError_parse (schema : ZodSchema) (args : value) :
  no_McpError (parse_or_throw schema args).
Proof. intros e. unfold parse_or_throw. destruct (parse schema args); discriminate. Qed.

Lemma no_McpError_read (o : value) (k : string) : no_McpError (read o k).
Proof. intros e. destruct o; discriminate. Qed.

Lemma no_McpError_map_each (f : value -> completion value) (items : list value) :
  (forall x, no_McpError (f x)) -> no_McpError (map_each f items).
Proof.
  intros Hf. induction items as [|x rest IH]; cbn [map_each].
  - apply no_McpError_Normal.
  - apply no_McpError_bind; [apply Hf|]. intros y.
    apply no_McpError_bind; [exact IH|]. intros ys. apply no_McpError_Normal.
Qed.

Lemma no_McpError_filter_each (f : value -> completion bool) (items : list value) :
  (forall x, no_McpError (f x)) -> no_McpError (filter_each f items).
Proof.
  intros Hf. induction items as [|x rest IH]; cbn [filter_each].
  - apply no_McpError_Normal.
  - apply no_McpError_bind; [apply Hf|]. intros y.
    apply no_McpError_bind; [exact IH|]. intros ys. apply no_McpError_Normal.
Qed.

Lemma no_McpError_call_map (callee : string) (recv : value)
      (f : value -> completion value) :
  (forall x, no_McpError (f x)) -> no_McpError (call_map callee recv f).
Proof.
  intros Hf. destruct recv; cbn [call_map]; try (intros e H; discriminate H).
  apply no_McpError_bind; [now apply no_McpError_map_each|].
  intros ys. apply no_McpError_Normal.
Qed.

Lemma no_McpError_call_slice (callee : string) (recv : value) (n : nat) :
  no_McpError (call_slice callee recv n).
Proof. destruct recv; intros e H; discriminate H. Qed.

Lemma no_McpError_top_rows (xs : string) (list : value)
      (row : value -> completion value) :
  (forall x, no_McpError (row x)) -> no_McpError (top_rows xs list row).
Proof.
  intros Hrow. unfold top_rows.
  apply no_McpError_bind; [apply no_McpError_call_slice|].
  intros top. now apply no_McpError_call_map.
Qed.

(** A callback that reads a property and then returns. *)
Ltac no_McpError_row :=
  let x := fresh "x" in
  intros x; apply no_McpError_bind;
  [ apply no_McpError_read | intros ?; apply no_McpError_Normal ].

Lemma handlers_throw_no_McpError (name : string) (args : value) :
  (forall request, no_McpError (api request)) ->
  In name tool_names ->
  no_McpError (dispatch name args).
Proof.
  intros Hapi Hin. cbn in Hin.
  repeat (destruct Hin as [<- | Hin]); try contradiction;
    unfold dispatch; cbn [String.eqb Ascii.eqb Bool.eqb andb].
  - unfold apollo_search_people.
    apply no_McpError_bind; [apply no_McpError_parse | intros validated].
    apply no_McpError_bind; [apply Hapi | intros result].
    apply no_McpError_bind; [apply no_McpError_read | intros people].
    apply no_McpError_bind; [|intros; apply no_McpError_Normal].
    apply no_McpError_top_rows. unfold person_row. no_McpError_row.
  - unfold apollo_enrich_person.
    apply no_McpError_bind; [apply no_McpError_parse | intros validated].
    apply no_McpError_bind; [apply Hapi | intros result].
    apply no_McpError_bind; [apply no_McpError_read | intros person].
    destruct (negb (JS.truthy person)); apply no_McpError_Normal.
  - unfold apollo_enrich_organization.
    apply no_McpError_bind; [apply no_McpError_parse | intros validated].
    apply no_McpError_bind; [apply Hapi | intros result].
    apply no_McpError_bind; [apply no_McpError_read | intros org].
    destruct (negb (JS.truthy org)); [apply no_McpError_Normal|].
    apply no_McpError_bind; [|intros; apply no_McpError_Normal].
    unfold organization_summary.
    apply no_McpError_bind; [|intros; apply no_McpError_Normal].
    unfold technologies_of.
    destruct (JS.nullish _); [apply no_McpError_Normal | apply no_McpError_call_slice].
  - unfold apollo_search_organizations.
    apply no_McpError_bind; [apply no_McpError_parse | intros validated].
    apply no_McpError_bind; [apply Hapi | intros result].
    apply no_McpError_bind; [apply no_McpError_read | intros orgs].
    apply no_McpError_bind; [|intros; apply no_McpError_Normal].
    apply no_McpError_top_rows. unfold organization_row. no_McpError_row.
  - unfold apollo_search_sequences.
    apply no_McpError_bind; [apply no_McpError_parse | intros validated].
    apply no_McpError_bind; [apply Hapi | intros result].
    apply no_McpError_bind; [apply no_McpError_read | intros sequences].
    apply no_McpError_bind; [|intros; apply no_McpError_Normal].
    apply no_McpError_call_map. unfold sequence_row. no_McpError_row.
  - unfold apollo_get_email_accounts.
    apply no_McpError_bind; [apply Hapi | intros result].
    apply no_McpError_bind; [apply no_McpError_read | intros accounts].
    apply no_McpError_bind; [|intros; apply no_McpError_Normal].
    apply no_McpError_call_map. unfold account_row. no_McpError_row.
  - unfold apollo_get_email_message_activities.
    apply no_McpError_bind; [apply no_McpError_parse | intros validated].
    apply no_McpError_bind; [apply Hapi | intros result].
    apply no_McpError_bind; [apply no_McpError_read | intros activities].
    apply no_McpError_bind; [|intros; apply no_McpError_Normal].
    unfold activities_summary.
    destruct (JS.or_else activities (VArray [])); try (intros e H; discriminate H).
    apply no_McpError_bind;
      [apply no_McpError_filter_each; unfold touch_type_is; no_McpError_row |].
    intros opened. apply no_McpError_bind;
      [apply no_McpError_filter_each; unfold touch_type_is; no_McpError_row |].
    intros clicked. apply no_McpError_bind;
      [apply no_McpError_filter_each; unfold touch_type_is; no_McpError_row |].
    intros replied. apply no_McpError_bind;
      [apply no_McpError_map_each; unfold activity_row; no_McpError_row |].
    intros rows. apply no_McpError_Normal.
Qed.

(** X13 — the catalog and the [switch] agree on the tool names: when
    the API itself throws no [McpError], the "unknown tool" error of
    the [default] case is thrown for exactly the names that
    [ListTools] does not list, and the seven listed names are pairwise
    distinct. *)
Theorem catalog_names_are_dispatched (name : string) (args : value) :
  (forall request, no_McpError (api request)) ->
  ((exists e, dispatch name args = Throw (McpErrorThrown e))
   <-> ~ In name (map Catalog.name Catalog.ListTools))
  /\ NoDup (map Catalog.name Catalog.ListTools)
  /\ length Catalog.ListTools = 7%nat.
Proof.
  intros Hapi. split; [|split; [distinct_keys | reflexivity]].
  change (map Catalog.name Catalog.ListTools) with tool_names.
  split.
  - intros [e He] Hin.
    exact (handlers_throw_no_McpError name args Hapi Hin e He).
  - intros Hout. eexists. apply dispatch_unknown. exact Hout.
Qed.

Lemma required_rejects_missing (s : ZodSchema) :
  is_required s = true -> is_valid (parse s VUndefined) = false.
Proof. destruct s; cbn; try discriminate; reflexivity. Qed.

Lemma fields_valid_false (shape : list (string * ZodSchema)) (data : value)
      (k : string) (s : ZodSchema) :
  In (k, s) shape ->
  is_valid (parse s (JS.prop data k)) = false ->
  fields_valid shape data = false.
Proof.
  intros Hin Hk. unfold fields_valid.
  destruct (forallb _ shape) eqn:Hall; [|reflexivity].
  rewrite forallb_forall in Hall. specialize (Hall _ Hin). cbn [fst snd] in Hall.
  rewrite Hk in Hall. discriminate Hall.
Qed.

(** X14 — what the catalog advertises is what the handlers validate:
    for each tool, in catalog order, the advertised input schema
    (descriptions aside) lists the keys of the tool's validator with
    their types, item types and defaults, and names as [required] the
    keys that are neither optional nor defaulted; and an argument
    object without such a key does fail validation. *)
Theorem catalog_matches_validators :
  map (fun tool => (Catalog.name tool, without_descriptions (Catalog.inputSchema tool)))
      Catalog.ListTools
  = map (fun entry => (fst entry, advertised_input (snd entry))) tool_schemas
  /\ forall name schema key field props,
       In (name, Some schema) tool_schemas ->
       In (key, field) (shape_of schema) ->
       is_required field = true ->
       JS.lookup key props = None ->
       is_valid (parse schema (VObject props)) = false.
Proof.
  split; [reflexivity|].
  intros name schema key field props Htool Hin Hreq Hk.
  destruct (tool_schema_object _ _ Htool) as [Hs _].
  rewrite Hs, parse_object_valid.
  apply (fields_valid_false _ _ key field Hin).
  cbn [JS.prop]. rewrite Hk. now apply required_rejects_missing.
Qed.

(** The request of each tool, spelled out. *)
Ltac spell_request Hreq :=
  match type of Hreq with
  | tool_request ?name ?validated = Some ?request =>
      let E := fresh "E" in
      assert (E : Some request = tool_request name validated) by (symmetry; exact Hreq);
      unfold tool_request in E;
      cbn [String.eqb Ascii.eqb Bool.eqb andb] in E;
      injection E as ->
  end.

(** X15 — when the API call of a tool fails, the tool does nothing
    more: the thrown error goes to the [catch] block as it is, and the
    call is rejected with its classification (so a 401 is the
    invalid-credentials error and a 429 the rate-limit error for every
    tool alike). *)
Theorem remote_failure_is_classified
        (name : string) (schema : option ZodSchema) (args validated : value)
        (request : Request) (error : exn) :
  In (name, schema) tool_schemas ->
  validates schema args validated ->
  tool_request name validated = Some request ->
  api request = Throw error ->
  callTool name args = Rejected (catch_block error).
Proof.
  intros Htool Hv Hreq Hfail. each_tool Htool; cbn [validates] in Hv.
  all: spell_request Hreq; enter_tool.
  - unfold apollo_search_people, searchPeople. run_handler. reflexivity.
  - unfold apollo_enrich_person, enrichPerson. run_handler. reflexivity.
  - unfold apollo_enrich_organization, enrichOrganization. run_handler. reflexivity.
  - unfold apollo_search_organizations, searchOrganizations. run_handler. reflexivity.
  - unfold apollo_search_sequences, searchSequences. run_handler.
    replace (JS.or_else (search_sequences_params validated) (VObject []))
      with (search_sequences_params validated).
    + run_handler. reflexivity.
    + unfold search_sequences_params, paged_params, copy_if_truthy.
      destruct (JS.truthy (JS.prop validated "name")); reflexivity.
  - unfold apollo_get_email_accounts, getEmailAccounts. run_handler. reflexivity.
  - unfold apollo_get_email_message_activities, getEmailMessageActivities.
    change (api {| method := GET;
                   url := "/emailer_messages/"
                          ++ to_string (JS.prop validated "message_id")
                          ++ "/activities";
                   data := VUndefined |} = Throw error) in Hfail.
    run_handler. reflexivity.
Qed.

(** *** Entries that are not records *)

Lemma map_each_null_entry (row : value -> completion value) (items : list value) :
  (forall x, JS.nullish x = true -> exists text, row x = Throw (TypeError text)) ->
  (forall x, JS.nullish x = false -> exists y, row x = Normal y) ->
  Exists (fun x => JS.nullish x = true) items ->
  exists text, map_each row items = Throw (TypeError text).
Proof.
  intros Hnull Hrec. induction items as [|x rest IH]; intros Hex.
  - inversion Hex.
  - cbn [map_each]. destruct (JS.nullish x) eqn:Ex.
    + destruct (Hnull x Ex) as [text ->]. exists text. reflexivity.
    + destruct (Hrec x Ex) as [y ->]. cbn [bind].
      inversion Hex as [? ? Hx | ? ? Hrest]; subst; [congruence|].
      destruct (IH Hrest) as [text ->]. exists text. reflexivity.
Qed.

Lemma filter_each_null_entry (t : string) (items : list value) :
  Exists (fun x => JS.nullish x = true) items ->
  exists text, filter_each (touch_type_is t) items = Throw (TypeError text).
Proof.
  induction items as [|x rest IH]; intros Hex.
  - inversion Hex.
  - cbn [filter_each]. unfold touch_type_is at 1.
    destruct (JS.nullish x) eqn:Ex.
    + destruct x; try discriminate Ex; cbn [read bind]; eexists; reflexivity.
    + rewrite (read_not_nullish _ _ Ex). cbn [bind].
      inversion Hex as [? ? Hx | ? ? Hrest]; subst; [congruence|].
      destruct (IH Hrest) as [text ->]. exists text. reflexivity.
Qed.

(** A callback that reads a property first throws on [null] and
    [undefined], and returns on everything else. *)
Ltac reading_row :=
  split;
  [ let x := fresh "x" in
    let Ex := fresh "Ex" in
    intros x Ex; destruct x; try discriminate Ex; cbn [read bind];
    eexists; reflexivity
  | let x := fresh "x" in
    let Ex := fresh "Ex" in
    intros x Ex; rewrite (read_not_nullish _ _ Ex); cbn [bind];
    eexists; reflexivity ].

Lemma rows_read_first :
  ((forall x, JS.nullish x = true -> exists text, person_row x = Throw (TypeError text))
   /\ (forall x, JS.nullish x = false -> exists y, person_row x = Normal y))
  /\ ((forall x, JS.nullish x = true ->
        exists text, organization_row x = Throw (TypeError text))
      /\ (forall x, JS.nullish x = false -> exists y, organization_row x = Normal y))
  /\ ((forall x, JS.nullish x = true ->
        exists text, sequence_row x = Throw (TypeError text))
      /\ (forall x, JS.nullish x = false -> exists y, sequence_row x = Normal y))
  /\ ((forall x, JS.nullish x = true ->
        exists text, account_row x = Throw (TypeError text))
      /\ (forall x, JS.nullish x = false -> exists y, account_row x = Normal y)).
Proof.
  split; [|split; [|split]].
  - unfold person_row. reading_row.
  - unfold organization_row. reading_row.
  - unfold sequence_row. reading_row.
  - unfold account_row. reading_row.
Qed.

Lemma internal_error_has_text (text : string) :
  exists text', Rejected (catch_block (TypeError text))
                = Rejected {| code := InternalError; message := text' |}.
Proof. eexists. reflexivity. Qed.

(** X17 — one entry that is [null] among those a tool summarises
    spoils the whole call: the two searches (within their first five
    results), the sequence search, the account listing and the message
    activities are rejected with an internal error instead of
    returning the remaining entries. *)
Theorem null_entry_is_internal_error (args validated result : value)
        (items : list value) :
  (Exists (fun x => JS.nullish x = true) (firstn 5 items) ->
   (parse SearchPeopleSchema args = Valid validated ->
    searchPeople (search_people_params validated) = Normal result ->
    JS.prop result "people" = VArray items ->
    exists text,
      callTool "apollo_search_people" args
      = Rejected {| code := InternalError; message := text |})
   /\ (parse SearchOrganizationsSchema args = Valid validated ->
       searchOrganizations (search_organizations_params validated) = Normal result ->
       JS.prop result "organizations" = VArray items ->
       exists text,
         callTool "apollo_search_organizations" args
         = Rejected {| code := InternalError; message := text |}))
  /\ (Exists (fun x => JS.nullish x = true) items ->
      (parse SearchSequencesSchema args = Valid validated ->
       searchSequences (search_sequences_params validated) = Normal result ->
       JS.prop result "emailer_campaigns" = VArray items ->
       exists text,
         callTool "apollo_search_sequences" args
         = Rejected {| code := InternalError; message := text |})
      /\ (getEmailAccounts = Normal result ->
          JS.prop result "email_accounts" = VArray items ->
          exists text,
            callTool "apollo_get_email_accounts" args
            = Rejected {| code := InternalError; message := text |})
      /\ (parse GetEmailMessageActivitiesSchema args = Valid validated ->
          getEmailMessageActivities (JS.prop validated "message_id") = Normal result ->
          JS.prop result "emailer_touches" = VArray items ->
          exists text,
            callTool "apollo_get_email_message_activities" args
            = Rejected {| code := InternalError; message := text |})).
Proof.
  destruct rows_read_first as [[P1 P2] [[O1 O2] [[S1 S2] [A1 A2]]]].
  split.
  - intros Hex. split.
    + intros Hv Hr Hp.
      pose proof (prop_array_not_nullish _ _ _ Hp) as Hn.
      destruct (map_each_null_entry _ _ P1 P2 Hex) as [text Ht].
      enter_tool. unfold apollo_search_people. run_handler.
      rewrite Hp. unfold top_rows.
      cbn [JS.or_else JS.truthy call_slice bind call_map]. rewrite Ht. cbn [bind].
      apply internal_error_has_text.
    + intros Hv Hr Hp.
      pose proof (prop_array_not_nullish _ _ _ Hp) as Hn.
      destruct (map_each_null_entry _ _ O1 O2 Hex) as [text Ht].
      enter_tool. unfold apollo_search_organizations. run_handler.
      rewrite Hp. unfold top_rows.
      cbn [JS.or_else JS.truthy call_slice bind call_map]. rewrite Ht. cbn [bind].
      apply internal_error_has_text.
  - intros Hex. split; [|split].
    + intros Hv Hr Hp.
      pose proof (prop_array_not_nullish _ _ _ Hp) as Hn.
      destruct (map_each_null_entry _ _ S1 S2 Hex) as [text Ht].
      enter_tool. unfold apollo_search_sequences. run_handler.
      rewrite Hp. cbn [JS.or_else JS.truthy call_map]. rewrite Ht. cbn [bind].
      apply internal_error_has_text.
    + intros Hr Hp.
      pose proof (prop_array_not_nullish _ _ _ Hp) as Hn.
      destruct (map_each_null_entry _ _ A1 A2 Hex) as [text Ht].
      enter_tool. unfold apollo_get_email_accounts. run_handler.
      rewrite Hp. cbn [JS.or_else JS.truthy call_map]. rewrite Ht. cbn [bind].
      apply internal_error_has_text.
    + intros Hv Hr Hp.
      pose proof (prop_array_not_nullish _ _ _ Hp) as Hn.
      destruct (filter_each_null_entry "opened" _ Hex) as [text Ht].
      enter_tool. unfold apollo_get_email_message_activities. run_handler.
      rewrite Hp. cbn [JS.or_else JS.truthy]. unfold activities_summary.
      rewrite Ht. cbn [bind].
      apply internal_error_has_text.
Qed.

End Adapter.

(** ** The adapter on sample invocations *)

Lemma C1_unknown_tool_witness :
  ~ In "apollo_delete_contact" tool_names
  /\ callTool decimal_text sdk_message (mock "/contacts" (Normal VNull))
       "apollo_delete_contact" (VObject [])
     = Rejected
         {| code := InternalError;
            message := "MCP error -32601: Unknown tool: apollo_delete_contact" |}.
Proof.
  assert (H : ~ In "apollo_delete_contact" tool_names)
    by (cbn; intuition discriminate).
  split; [exact H|].
  destruct (C1_unknown_tool_reported_as_internal_error
              decimal_text sdk_message (mock "/contacts" (Normal VNull))
              "apollo_delete_contact" (VObject []) H) as [E _].
  rewrite E. reflexivity.
Defined.

(** C2 (as amended) — whatever is thrown inside the [try] is
    classified in this order: a [ZodError] gives an invalid-parameters
    error listing the issue messages; otherwise a response status of
    401 gives the invalid-credentials error with the fixed text about
    checking the API key, a status of 429 the rate-limit error with the
    fixed retry text, and anything else an internal error constructed
    from the thrown error's own message, or from the fixed fallback
    text when that message is empty.  The message such an error
    carries is the SDK's rendering of the text it is constructed with,
    ["MCP error <code>: <text>"], not the bare text. *)
Theorem C2_error_classification
        (number_to_string : Q -> string) (api : Request -> completion value)
        (name : string) (args : value) (error : exn) :
  dispatch number_to_string api name args = Throw error ->
  exists e,
    callTool number_to_string sdk_message api name args = Rejected e
    /\ (forall errors,
          error = ZodError errors ->
          code e = InvalidParams
          /\ message e
             = "Invalid parameters: " ++ JS.join ", " (map Zod.message errors)
          /\ sdk_message e
             = "MCP error -32602: Invalid parameters: "
               ++ JS.join ", " (map Zod.message errors))
    /\ (forall error_message,
          error = RequestError (Some 401%Z) error_message ->
          code e = InvalidRequest
          /\ message e
             = "Invalid Apollo API key. Check your APOLLO_API_KEY environment variable."
          /\ sdk_message e
             = "MCP error -32600: Invalid Apollo API key. "
               ++ "Check your APOLLO_API_KEY environment variable.")
    /\ (forall error_message,
          error = RequestError (Some 429%Z) error_message ->
          code e = InternalError
          /\ message e = "Apollo API rate limit exceeded. Please wait and try again."
          /\ sdk_message e
             = "MCP error -32603: Apollo API rate limit exceeded. "
               ++ "Please wait and try again.")
    /\ (forall response_status error_message,
          error = RequestError response_status error_message ->
          response_status <> Some 401%Z ->
          response_status <> Some 429%Z ->
          code e = InternalError
          /\ message e = (if error_message =? ""
                          then "An unexpected error occurred"
                          else error_message)
          /\ sdk_message e
             = "MCP error -32603: "
               ++ (if error_message =? ""
                   then "An unexpected error occurred"
                   else error_message))
    /\ (forall error_message,
          error = TypeError error_message ->
          code e = InternalError
          /\ message e = (if error_message =? ""
                          then "An unexpected error occurred"
                          else error_message)
          /\ sdk_message e
             = "MCP error -32603: "
               ++ (if error_message =? ""
                   then "An unexpected error occurred"
                   else error_message))
    /\ (forall thrown,
          error = McpErrorThrown thrown ->
          code e = InternalError
          /\ message e = sdk_message thrown
          /\ sdk_message e = "MCP error -32603: " ++ sdk_message thrown).
Proof.
  intros Hd. exists (catch_block sdk_message error).
  split; [unfold callTool; now rewrite Hd|].
  repeat split; subst error; try reflexivity.
  all: cbn [catch_block].
  all: try (assert (H401 : status_is response_status 401 = false)
             by (destruct response_status as [s|]; [|reflexivity]; cbn;
                 apply Z.eqb_neq; intros ->; now apply H0);
            assert (H429 : status_is response_status 429 = false)
              by (destruct response_status as [s|]; [|reflexivity]; cbn;
                  apply Z.eqb_neq; intros ->; now apply H1);
            rewrite H401, H429; reflexivity).
  all: destruct thrown as [c m]; unfold internal_error, message_or_default;
    replace (sdk_message {| code := c; message := m |} =? "") with false
      by reflexivity;
    reflexivity.
Qed.

Lemma C2_boom_witness :
  dispatch decimal_text (mock "/mixed_people/search" (Throw (RequestError None "boom")))
    "apollo_search_people" (VObject [])
  = Throw (RequestError None "boom")
  /\ exists e,
       callTool decimal_text sdk_message
         (mock "/mixed_people/search" (Throw (RequestError None "boom")))
         "apollo_search_people" (VObject [])
       = Rejected e
       /\ code e = InternalError
       /\ message e = "boom"
       /\ sdk_message e = "MCP error -32603: boom".
Proof.
  assert (H : dispatch decimal_text
                (mock "/mixed_people/search" (Throw (RequestError None "boom")))
                "apollo_search_people" (VObject [])
              = Throw (RequestError None "boom")) by reflexivity.
  split; [exact H|].
  destruct (C2_error_classification decimal_text _ _ _ _ H)
    as [e [He [_ [_ [_ [E _]]]]]].
  exists e. split; [exact He|].
  apply (E None "boom" eq_refl); discriminate.
Defined.

(** C2, as first stated, fails: for a thrown error with message
    ["boom"] the handler constructs its internal error from ["boom"],
    and the message that error carries is ["MCP error -32603: boom"]. *)
Lemma C2_boom_is_prefixed :
  callTool decimal_text sdk_message
    (mock "/mixed_people/search" (Throw (RequestError None "boom")))
    "apollo_search_people" (VObject [])
  = Rejected {| code := InternalError; message := "boom" |}
  /\ sdk_message {| code := InternalError; message := "boom" |}
     = "MCP error -32603: boom"
  /\ "MCP error -32603: boom" <> "boom".
Proof. split; [reflexivity|]. split; [reflexivity | discriminate]. Qed.

Lemma C3_keywords_witness :
  In (SearchPeopleSchema, search_people_params, search_people_renames) mapped_tools
  /\ parse SearchPeopleSchema
       (VObject [("keywords", VString "CTO"); ("titles", VArray [])])
     = Valid (VObject [ ("keywords", VString "CTO"); ("titles", VArray []);
                        ("page", VNumber 1); ("per_page", VNumber 10) ])
  /\ In ("keywords", "q_keywords") search_people_renames
  /\ JS.prop
       (search_people_params
          (VObject [ ("keywords", VString "CTO"); ("titles", VArray []);
                     ("page", VNumber 1); ("per_page", VNumber 10) ]))
       "q_keywords"
     = VString "CTO".
Proof.
  assert (Ht : In (SearchPeopleSchema, search_people_params, search_people_renames)
                  mapped_tools) by (left; reflexivity).
  assert (Hv : parse SearchPeopleSchema
                 (VObject [("keywords", VString "CTO"); ("titles", VArray [])])
               = Valid (VObject [ ("keywords", VString "CTO"); ("titles", VArray []);
                                  ("page", VNumber 1); ("per_page", VNumber 10) ]))
    by reflexivity.
  assert (Hr : In ("keywords", "q_keywords") search_people_renames)
    by (left; reflexivity).
  split; [exact Ht | split; [exact Hv | split; [exact Hr|]]].
  destruct (C3_filters_copied_when_nonempty _ _ _ _ _ _ _ Ht Hv Hr) as [Hk [Hc _]].
  apply Hc. apply Hk. split; discriminate.
Defined.

(** C3, as first stated, fails: [keywords: ""] is in the validated
    arguments, yet the request has no [q_keywords]. *)
Lemma C3_empty_keywords_not_sent :
  parse SearchPeopleSchema (VObject [("keywords", VString "")])
  = Valid (VObject [ ("keywords", VString "");
                     ("page", VNumber 1); ("per_page", VNumber 10) ])
  /\ JS.has_key "keywords"
       (VObject [ ("keywords", VString "");
                  ("page", VNumber 1); ("per_page", VNumber 10) ]) = true
  /\ search_people_params
       (VObject [ ("keywords", VString "");
                  ("page", VNumber 1); ("per_page", VNumber 10) ])
     = VObject [ ("page", VNumber 1); ("per_page", VNumber 10) ]
  /\ JS.has_key "q_keywords"
       (search_people_params
          (VObject [ ("keywords", VString "");
                     ("page", VNumber 1); ("per_page", VNumber 10) ])) = false.
Proof. repeat split. Qed.

Lemma C4_search_people_witness :
  JS.nullish people_response = false
  /\ parse SearchPeopleSchema (VObject [("keywords", VString "engineer")])
     = Valid (VObject [ ("keywords", VString "engineer");
                        ("page", VNumber 1); ("per_page", VNumber 10) ])
  /\ callTool decimal_text sdk_message
       (mock "/mixed_people/search" (Normal people_response))
       "apollo_search_people" (VObject [("keywords", VString "engineer")])
     = Returned
         {| content :=
              [ {| type := "text";
                   text :=
                     "Found 1 people"
                     ++ String (ascii_of_nat 10) EmptyString
                     ++ String (ascii_of_nat 10) EmptyString
                     ++ "Top Results:" ++ String (ascii_of_nat 10) EmptyString
                     ++ JSON_stringify decimal_text
                          (VArray
                             [ VObject
                                 [ ("name", VString "John Doe");
                                   ("title", VString "CTO");
                                   ("company", VString "Test Corp");
                                   ("location", VString "San Francisco, California");
                                   ("email", VString "john@test.com");
                                   ("linkedin",
                                     VString "https://linkedin.com/in/johndoe") ] ])
                     ++ String (ascii_of_nat 10) EmptyString
                     ++ String (ascii_of_nat 10) EmptyString
                     ++ "Full data:" ++ String (ascii_of_nat 10) EmptyString
                     ++ JSON_stringify decimal_text people_response |} ] |}.
Proof.
  assert (Hn : JS.nullish people_response = false) by reflexivity.
  assert (Hv : parse SearchPeopleSchema (VObject [("keywords", VString "engineer")])
               = Valid (VObject [ ("keywords", VString "engineer");
                                  ("page", VNumber 1); ("per_page", VNumber 10) ]))
    by reflexivity.
  split; [exact Hn | split; [exact Hv|]].
  destruct (C4_rendered_layouts decimal_text sdk_message
              (mock "/mixed_people/search" (Normal people_response))
              (VObject [("keywords", VString "engineer")])
              (VObject [ ("keywords", VString "engineer");
                         ("page", VNumber 1); ("per_page", VNumber 10) ])
              people_response
              (VArray
                 [ VObject
                     [ ("name", VString "John Doe");
                       ("title", VString "CTO");
                       ("company", VString "Test Corp");
                       ("location", VString "San Francisco, California");
                       ("email", VString "john@test.com");
                       ("linkedin", VString "https://linkedin.com/in/johndoe") ] ])
              Hn) as [E _].
  exact (E Hv eq_refl eq_refl).
Defined.

(** C4, as first stated, fails: the text of a person enrichment has its
    summary right after the title line, and no choice of status line
    and summary header gives it the stated layout. *)
Lemma C4_enrichment_has_no_header :
  callTool decimal_text sdk_message (mock "/people/match" (Normal person_response))
    "apollo_enrich_person" (VObject [("email", VString "john@test.com")])
  = Returned
      {| content :=
           [ {| type := "text";
                text :=
                  "Person Enrichment:"
                  ++ String (ascii_of_nat 10) EmptyString
                  ++ String (ascii_of_nat 10) EmptyString
                  ++ JSON_stringify decimal_text (person_summary decimal_text john_doe)
                  ++ String (ascii_of_nat 10) EmptyString
                  ++ String (ascii_of_nat 10) EmptyString
                  ++ "Full data:" ++ String (ascii_of_nat 10) EmptyString
                  ++ JSON_stringify decimal_text person_response |} ] |}
  /\ forall status header,
       "Person Enrichment:"
       ++ String (ascii_of_nat 10) EmptyString
       ++ String (ascii_of_nat 10) EmptyString
       ++ JSON_stringify decimal_text (person_summary decimal_text john_doe)
       ++ String (ascii_of_nat 10) EmptyString
       ++ String (ascii_of_nat 10) EmptyString
       ++ "Full data:" ++ String (ascii_of_nat 10) EmptyString
       ++ JSON_stringify decimal_text person_response
       <> status
          ++ String (ascii_of_nat 10) EmptyString
          ++ String (ascii_of_nat 10) EmptyString
          ++ header ++ ":" ++ String (ascii_of_nat 10) EmptyString
          ++ JSON_stringify decimal_text (person_summary decimal_text john_doe)
          ++ String (ascii_of_nat 10) EmptyString
          ++ String (ascii_of_nat 10) EmptyString
          ++ "Full data:" ++ String (ascii_of_nat 10) EmptyString
          ++ JSON_stringify decimal_text person_response.
Proof.
  split; [reflexivity|].
  intros status header.
  exact (titled_text_not_headed decimal_text "Person Enrichment" status header
           (person_summary decimal_text john_doe) person_response).
Qed.

Lemma C5_not_found_witness :
  JS.nullish (VObject []) = false
  /\ callTool decimal_text sdk_message (mock "/people/match" (Normal (VObject [])))
       "apollo_enrich_person" (VObject [("email", VString "x@y.com")])
     = Returned (text_result "No person found with the provided information.")
  /\ callTool decimal_text sdk_message
       (mock "/organizations/enrich" (Normal (VObject [])))
       "apollo_enrich_organization" (VObject [("domain", VString "apollo.io")])
     = Returned (text_result "No organization found with the provided domain.").
Proof.
  assert (Hn : JS.nullish (VObject []) = false) by reflexivity.
  split; [exact Hn|]. split.
  - destruct (C5_enrichment_not_found decimal_text sdk_message
                (mock "/people/match" (Normal (VObject [])))
                (VObject [("email", VString "x@y.com")])
                (VObject [("email", VString "x@y.com")])
                (VObject []) Hn) as [E _].
    apply E; reflexivity.
  - destruct (C5_enrichment_not_found decimal_text sdk_message
                (mock "/organizations/enrich" (Normal (VObject [])))
                (VObject [("domain", VString "apollo.io")])
                (VObject [("domain", VString "apollo.io")])
                (VObject []) Hn) as [_ E].
    apply E; reflexivity.
Defined.

(** C5, as first stated, fails: a response body that is [null] lacks
    the [person] / [organization] field like any other, yet reading
    the field off it throws and the call is rejected. *)
Lemma C5_null_body_is_rejected :
  JS.has_key "person" VNull = false
  /\ JS.has_key "organization" VNull = false
  /\ callTool decimal_text sdk_message (mock "/people/match" (Normal VNull))
       "apollo_enrich_person" (VObject [("email", VString "x@y.com")])
     = Rejected {| code := InternalError;
                   message := "Cannot read properties of null (reading 'person')" |}
  /\ callTool decimal_text sdk_message (mock "/organizations/enrich" (Normal VNull))
       "apollo_enrich_organization" (VObject [("domain", VString "apollo.io")])
     = Rejected {| code := InternalError;
                   message := "Cannot read properties of null (reading 'organization')" |}.
Proof. repeat split. Qed.

Lemma C6_san_francisco_witness :
  person_row decimal_text john_doe
  = Normal (VObject
      [ ("name", VString "John Doe");
        ("title", VString "CTO");
        ("company", VString "Test Corp");
        ("location", VString "San Francisco, California");
        ("email", VString "john@test.com");
        ("linkedin", VString "https://linkedin.com/in/johndoe") ])
  /\ JS.prop
       (VObject
          [ ("name", VString "John Doe");
            ("title", VString "CTO");
            ("company", VString "Test Corp");
            ("location", VString "San Francisco, California");
            ("email", VString "john@test.com");
            ("linkedin", VString "https://linkedin.com/in/johndoe") ])
       "location"
     = VString "San Francisco, California".
Proof.
  assert (H : person_row decimal_text john_doe
              = Normal (VObject
                  [ ("name", VString "John Doe");
                    ("title", VString "CTO");
                    ("company", VString "Test Corp");
                    ("location", VString "San Francisco, California");
                    ("email", VString "john@test.com");
                    ("linkedin", VString "https://linkedin.com/in/johndoe") ]))
    by reflexivity.
  split; [exact H|].
  destruct (C6_location_when_truthy decimal_text john_doe _ (or_introl H))
    as [_ [_ E]].
  apply (E "San Francisco" "California"); try reflexivity; discriminate.
Defined.

(** C6, as first stated, fails: this record has both a [city] and a
    [state], but its [city] is the empty string, and the summary's
    [location] is the [country], not [", California"]. *)
Lemma C6_empty_city_gives_country :
  JS.has_key "city" remote_worker = true
  /\ JS.has_key "state" remote_worker = true
  /\ person_row decimal_text remote_worker
     = Normal (VObject
         [ ("name", VString "Ada");
           ("title", VUndefined);
           ("company", VUndefined);
           ("location", VString "United States");
           ("email", VUndefined);
           ("linkedin", VUndefined) ])
  /\ VString "United States" <> VString ", California".
Proof. repeat split. discriminate. Qed.

Lemma C7_twelve_technologies_witness :
  exists summary,
    callTool decimal_text sdk_message
      (mock "/organizations/enrich" (Normal organization_response))
      "apollo_enrich_organization" (VObject [("domain", VString "apollo.io")])
    = Returned (text_result
        (titled_text decimal_text "Organization Enrichment" summary
           organization_response))
    /\ JS.prop summary "technologies"
       = VArray (map VString
           [ "t01"; "t02"; "t03"; "t04"; "t05"; "t06"; "t07"; "t08"; "t09"; "t10" ]).
Proof.
  destruct (C7_technologies_first_ten decimal_text sdk_message
              (mock "/organizations/enrich" (Normal organization_response))
              (VObject [("domain", VString "apollo.io")])
              (VObject [("domain", VString "apollo.io")])
              organization_response
              (JS.prop organization_response "organization")
              twelve_technologies eq_refl eq_refl eq_refl eq_refl)
    as [summary [E [T _]]].
  exists summary. split; [exact E | exact T].
Defined.

Lemma C8_engineer_witness :
  JS.lookup "page" [("keywords", VString "engineer")] = None
  /\ JS.lookup "per_page" [("keywords", VString "engineer")] = None
  /\ is_valid (parse SearchPeopleSchema (VObject [("keywords", VString "engineer")]))
     = true
  /\ forall validated,
       parse SearchPeopleSchema (VObject [("keywords", VString "engineer")])
       = Valid validated ->
       JS.prop validated "page" = VNumber 1 /\ JS.prop validated "per_page" = VNumber 10.
Proof.
  split; [reflexivity|]. split; [reflexivity|].
  destruct (C8_pagination_defaults [("keywords", VString "engineer")]
              eq_refl eq_refl) as [[V P] _].
  split; [rewrite V; reflexivity | exact P].
Defined.

Lemma C9_four_touches_witness :
  Forall record_like four_touches
  /\ exists summary,
       callTool decimal_text sdk_message
         (mock "/emailer_messages/m1/activities"
            (Normal (VObject [("emailer_touches", VArray four_touches)])))
         "apollo_get_email_message_activities" (VObject [("message_id", VString "m1")])
       = Returned (text_result
           (titled_text decimal_text "Email Message Activities" summary
              (VObject [("emailer_touches", VArray four_touches)])))
       /\ JS.prop summary "total_activities" = VNumber 4
       /\ JS.prop summary "opens" = VNumber 2
       /\ JS.prop summary "clicks" = VNumber 1
       /\ JS.prop summary "replies" = VNumber 0.
Proof.
  assert (H : Forall record_like four_touches)
    by (repeat constructor).
  split; [exact H|].
  destruct (C9_activity_counts decimal_text sdk_message
              (mock "/emailer_messages/m1/activities"
                 (Normal (VObject [("emailer_touches", VArray four_touches)])))
              (VObject [("message_id", VString "m1")])
              (VObject [("message_id", VString "m1")])
              (VObject [("emailer_touches", VArray four_touches)])
              four_touches eq_refl eq_refl eq_refl H)
    as [summary [E [_ [T [_ [_ [O [C [R _]]]]]]]]].
  exists summary. split; [exact E|]. repeat split; assumption.
Defined.

Lemma C10_out_of_range_witness :
  JS.lookup "page" [("page", VNumber (-3)); ("per_page", VNumber (1001 # 2))]
  = Some (VNumber (-3))
  /\ JS.lookup "per_page" [("page", VNumber (-3)); ("per_page", VNumber (1001 # 2))]
     = Some (VNumber (1001 # 2))
  /\ parse SearchPeopleSchema
       (VObject [("page", VNumber (-3)); ("per_page", VNumber (1001 # 2))])
     = Valid (VObject [("page", VNumber (-3)); ("per_page", VNumber (1001 # 2))])
  /\ forall validated,
       parse SearchSequencesSchema
         (VObject [("page", VNumber (-3)); ("per_page", VNumber (1001 # 2))])
       = Valid validated ->
       JS.prop validated "page" = VNumber (-3)
       /\ JS.prop validated "per_page" = VNumber (1001 # 2).
Proof.
  split; [reflexivity|]. split; [reflexivity|]. split; [reflexivity|].
  destruct (C10_pagination_unconstrained
              [("page", VNumber (-3)); ("per_page", VNumber (1001 # 2))]
              (-3) (1001 # 2) eq_refl eq_refl) as [_ [_ [_ P]]].
  exact P.
Defined.

(** ** Further properties on sample invocations *)

(** X16 — a tool consults the remote API at one request only: two
    APIs that answer that request alike make the call settle alike,
    whatever they answer elsewhere. *)
Theorem tool_calls_one_endpoint
        (number_to_string : Q -> string) (McpError_message : McpError -> string)
        (api1 api2 : Request -> completion value)
        (name : string) (schema : option ZodSchema) (args validated : value)
        (request : Request) :
  In (name, schema) tool_schemas ->
  validates schema args validated ->
  tool_request number_to_string name validated = Some request ->
  api1 request = api2 request ->
  callTool number_to_string McpError_message api1 name args
  = callTool number_to_string McpError_message api2 name args.
Proof.
  intros Htool Hv Hreq Hsame.
  assert (E : forall api outcome, api request = outcome ->
                callTool number_to_string McpError_message api name args
                = callTool number_to_string McpError_message
                    (fun _ => outcome) name args).
  { clear Hsame api1 api2. intros api outcome Hapi.
    cbn in Htool.
    repeat (destruct Htool as [Htool | Htool];
            [ first [discriminate Htool | injection Htool as <- <-] | ]);
      try contradiction; cbn [validates] in Hv.
    all: assert (Hr : Some request = tool_request number_to_string _ validated)
        by (symmetry; exact Hreq);
      unfold tool_request in Hr;
      cbn [String.eqb Ascii.eqb Bool.eqb andb] in Hr;
      injection Hr as ->;
      unfold callTool, dispatch; cbn [String.eqb Ascii.eqb Bool.eqb andb].
    - unfold apollo_search_people, searchPeople, parse_or_throw.
      rewrite Hv. cbn [bind]. now rewrite Hapi.
    - unfold apollo_enrich_person, enrichPerson, parse_or_throw.
      rewrite Hv. cbn [bind]. now rewrite Hapi.
    - unfold apollo_enrich_organization, enrichOrganization, parse_or_throw.
      rewrite Hv. cbn [bind]. now rewrite Hapi.
    - unfold apollo_search_organizations, searchOrganizations, parse_or_throw.
      rewrite Hv. cbn [bind]. now rewrite Hapi.
    - unfold apollo_search_sequences, searchSequences, parse_or_throw.
      rewrite Hv. cbn [bind].
      replace (JS.or_else (search_sequences_params validated) (VObject []))
        with (search_sequences_params validated).
      + now rewrite Hapi.
      + unfold search_sequences_params, paged_params, copy_if_truthy.
        destruct (JS.truthy (JS.prop validated "name")); reflexivity.
    - unfold apollo_get_email_accounts, getEmailAccounts. now rewrite Hapi.
    - unfold apollo_get_email_message_activities, getEmailMessageActivities,
        parse_or_throw.
      rewrite Hv. cbn [bind].
      change (api {| method := GET;
                     url := "/emailer_messages/"
                            ++ to_string number_to_string
                                 (JS.prop validated "message_id")
                            ++ "/activities";
                     data := VUndefined |} = outcome) in Hapi.
      now rewrite Hapi. }
  rewrite (E api1 _ Hsame), (E api2 _ eq_refl). reflexivity.
Qed.

Lemma unknown_arguments_witness :
  In ("apollo_search_people", Some SearchPeopleSchema) tool_schemas
  /\ callTool decimal_text sdk_message
       (mock "/mixed_people/search" (Normal people_response))
       "apollo_search_people"
       (VObject [("keywords", VString "CTO")])
     = callTool decimal_text sdk_message
         (mock "/mixed_people/search" (Normal people_response))
         "apollo_search_people"
         (VObject [("debug", VBool true); ("keywords", VString "CTO");
                   ("limit", VNumber 500)]).
Proof.
  assert (Ht : In ("apollo_search_people", Some SearchPeopleSchema) tool_schemas)
    by (left; reflexivity).
  split; [exact Ht|].
  apply (unknown_arguments_ignored decimal_text sdk_message
           (mock "/mixed_people/search" (Normal people_response))
           "apollo_search_people" SearchPeopleSchema
           [("keywords", VString "CTO")]
           [("debug", VBool true); ("keywords", VString "CTO"); ("limit", VNumber 500)]
           Ht).
  intros k Hk. cbn in Hk.
  repeat (destruct Hk as [<- | Hk]; [reflexivity|]). contradiction.
Defined.

Lemma validation_idempotent_witness :
  parse SearchSequencesSchema (VObject [("name", VString "Outbound")])
  = Valid (VObject [ ("name", VString "Outbound");
                     ("page", VNumber 1); ("per_page", VNumber 25) ])
  /\ parse SearchSequencesSchema
       (VObject [ ("name", VString "Outbound");
                  ("page", VNumber 1); ("per_page", VNumber 25) ])
     = Valid (VObject [ ("name", VString "Outbound");
                        ("page", VNumber 1); ("per_page", VNumber 25) ]).
Proof.
  assert (Hv : parse SearchSequencesSchema (VObject [("name", VString "Outbound")])
               = Valid (VObject [ ("name", VString "Outbound");
                                  ("page", VNumber 1); ("per_page", VNumber 25) ]))
    by reflexivity.
  split; [exact Hv|].
  apply (validation_idempotent "apollo_search_sequences" SearchSequencesSchema
           (VObject [("name", VString "Outbound")])).
  - cbn. tauto.
  - exact Hv.
Defined.


Lemma missing_arguments_witness :
  (forall props, VUndefined <> VObject props)
  /\ callTool decimal_text sdk_message
       (mock "/emailer_campaigns/search" (Normal (VObject [])))
       "apollo_search_sequences" VUndefined
     = Rejected {| code := InvalidParams;
                   message := "Invalid parameters: Required" |}.
Proof.
  assert (H : forall props, VUndefined <> VObject props) by (intros props; discriminate).
  split; [exact H|].
  rewrite (missing_arguments_rejected decimal_text sdk_message
             (mock "/emailer_campaigns/search" (Normal (VObject [])))
             "apollo_search_sequences" SearchSequencesSchema VUndefined
             ltac:(cbn; tauto) H).
  reflexivity.
Defined.


Lemma request_fields_witness :
  In (SearchOrganizationsSchema, search_organizations_params,
       search_organizations_renames) mapped_tools
  /\ JS.has_key "organization_locations"
       (search_organizations_params
          (VObject [ ("locations", VArray [VString "Paris"]);
                     ("page", VNumber 1); ("per_page", VNumber 10) ])) = true
  /\ In "organization_locations"
        (request_fields SearchOrganizationsSchema search_organizations_renames).
Proof.
  assert (Ht : In (SearchOrganizationsSchema, search_organizations_params,
                    search_organizations_renames) mapped_tools)
    by (right; right; left; reflexivity).
  assert (Hk : JS.has_key "organization_locations"
                 (search_organizations_params
                    (VObject [ ("locations", VArray [VString "Paris"]);
                               ("page", VNumber 1); ("per_page", VNumber 10) ])) = true)
    by reflexivity.
  split; [exact Ht|]. split; [exact Hk|].
  exact (request_has_only_declared_fields _ _ _ _ _ Ht Hk).
Defined.

Lemma search_request_paged_witness :
  In (SearchPeopleSchema, search_people_params) search_tools
  /\ parse SearchPeopleSchema (VObject [])
     = Valid (VObject [("page", VNumber 1); ("per_page", VNumber 10)])
  /\ exists page per_page,
       JS.prop (search_people_params
                  (VObject [("page", VNumber 1); ("per_page", VNumber 10)])) "page"
       = VNumber page
       /\ JS.prop (search_people_params
                     (VObject [("page", VNumber 1); ("per_page", VNumber 10)]))
                  "per_page"
          = VNumber per_page.
Proof.
  assert (Ht : In (SearchPeopleSchema, search_people_params) search_tools)
    by (left; reflexivity).
  assert (Hv : parse SearchPeopleSchema (VObject [])
               = Valid (VObject [("page", VNumber 1); ("per_page", VNumber 10)]))
    by reflexivity.
  split; [exact Ht|]. split; [exact Hv|].
  destruct (search_request_is_paged _ _ _ _ Ht Hv) as [p [pp [H1 [H2 _]]]].
  exists p, pp. split; [exact H1 | exact H2].
Defined.

Lemma first_five_witness :
  Forall record_like (firstn 5 six_results)
  /\ callTool decimal_text sdk_message
       (mock "/mixed_people/search"
          (Normal (VObject [("people", VArray six_results)])))
       "apollo_search_people" (VObject [])
     = Returned (text_result
         (headed_text decimal_text "Found 0 people" "Top Results"
            (VArray (map (person_entry decimal_text) (firstn 5 six_results)))
            (VObject [("people", VArray six_results)]))).
Proof.
  assert (H : Forall record_like (firstn 5 six_results)) by (repeat constructor).
  split; [exact H|].
  destruct (search_summaries_first_five decimal_text sdk_message
              (mock "/mixed_people/search"
                 (Normal (VObject [("people", VArray six_results)])))
              (VObject [])
              (VObject [("page", VNumber 1); ("per_page", VNumber 10)])
              (VObject [("people", VArray six_results)])
              six_results H) as [E _].
  rewrite (E eq_refl eq_refl eq_refl). reflexivity.
Defined.

Lemma listings_count_witness :
  Forall record_like two_sequences
  /\ callTool decimal_text sdk_message
       (mock "/emailer_campaigns/search"
          (Normal (VObject [("emailer_campaigns", VArray two_sequences)])))
       "apollo_search_sequences" (VObject [])
     = Returned (text_result
         (headed_text decimal_text "Found 2 sequences" "Summary"
            (VArray (map sequence_entry two_sequences))
            (VObject [("emailer_campaigns", VArray two_sequences)]))).
Proof.
  assert (H : Forall record_like two_sequences) by (repeat constructor).
  split; [exact H|].
  destruct (listings_count_their_rows decimal_text sdk_message
              (mock "/emailer_campaigns/search"
                 (Normal (VObject [("emailer_campaigns", VArray two_sequences)])))
              (VObject [])
              (VObject [("page", VNumber 1); ("per_page", VNumber 25)])
              (VObject [("emailer_campaigns", VArray two_sequences)])
              two_sequences H) as [E _].
  rewrite (E eq_refl eq_refl eq_refl). reflexivity.
Defined.

Lemma missing_list_witness :
  JS.nullish (VObject []) = false
  /\ callTool decimal_text sdk_message
       (mock "/email_accounts" (Normal (VObject [])))
       "apollo_get_email_accounts" VUndefined
     = Returned (text_result
         (headed_text decimal_text "Found 0 email accounts" "Accounts"
            (VArray []) (VObject []))).
Proof.
  assert (H : JS.nullish (VObject []) = false) by reflexivity.
  split; [exact H|].
  destruct (missing_list_is_empty decimal_text sdk_message
              (mock "/email_accounts" (Normal (VObject [])))
              VUndefined VUndefined (VObject []) H) as [_ [_ [_ [E _]]]].
  rewrite (E eq_refl eq_refl). reflexivity.
Defined.

Lemma null_response_witness :
  In ("apollo_enrich_person", Some EnrichPersonSchema) tool_schemas
  /\ mock "/people/match" (Normal VNull)
       {| method := POST; url := "/people/match";
          data := VObject [("email", VString "x@y.com")] |}
     = Normal VNull
  /\ exists text,
       callTool decimal_text sdk_message (mock "/people/match" (Normal VNull))
         "apollo_enrich_person" (VObject [("email", VString "x@y.com")])
       = Rejected {| code := InternalError; message := text |}.
Proof.
  assert (Ht : In ("apollo_enrich_person", Some EnrichPersonSchema) tool_schemas)
    by (right; left; reflexivity).
  split; [exact Ht|]. split; [reflexivity|].
  exact (null_response_is_internal_error decimal_text sdk_message
           (mock "/people/match" (Normal VNull))
           "apollo_enrich_person" (Some EnrichPersonSchema)
           (VObject [("email", VString "x@y.com")])
           (VObject [("email", VString "x@y.com")])
           {| method := POST; url := "/people/match";
              data := VObject [("email", VString "x@y.com")] |}
           Ht eq_refl eq_refl eq_refl).
Defined.

Lemma rejection_message_witness :
  callTool decimal_text sdk_message
    (mock "/people/match" (Throw (RequestError (Some 500%Z) "")))
    "apollo_enrich_person" (VObject [])
  = Rejected {| code := InternalError; message := "An unexpected error occurred" |}
  /\ "An unexpected error occurred" <> "".
Proof.
  assert (H : callTool decimal_text sdk_message
                (mock "/people/match" (Throw (RequestError (Some 500%Z) "")))
                "apollo_enrich_person" (VObject [])
              = Rejected {| code := InternalError;
                            message := "An unexpected error occurred" |})
    by reflexivity.
  split; [exact H|].
  exact (proj1 (rejections_carry_a_message decimal_text sdk_message _ _ _ _ H)).
Defined.

Lemma mock_throws_no_McpError (path : string) (response : value) (request : Request) :
  no_McpError (mock path (Normal response) request).
Proof.
  intros e. unfold mock. destruct (url request =? path); discriminate.
Qed.

Lemma catalog_dispatch_witness :
  (forall request,
     no_McpError (mock "/email_accounts" (Normal (VObject [])) request))
  /\ In "apollo_get_email_accounts" (map Catalog.name Catalog.ListTools)
  /\ ~ exists e,
         dispatch decimal_text (mock "/email_accounts" (Normal (VObject [])))
           "apollo_get_email_accounts" VUndefined
         = Throw (McpErrorThrown e).
Proof.
  assert (H : forall request,
            no_McpError (mock "/email_accounts" (Normal (VObject [])) request))
    by (intros request; apply mock_throws_no_McpError).
  assert (Hin : In "apollo_get_email_accounts" (map Catalog.name Catalog.ListTools))
    by (cbn; tauto).
  split; [exact H|]. split; [exact Hin|].
  destruct (catalog_names_are_dispatched decimal_text
              (mock "/email_accounts" (Normal (VObject [])))
              "apollo_get_email_accounts" VUndefined H) as [[Hd _] _].
  intros He. exact (Hd He Hin).
Defined.

Lemma remote_failure_witness :
  In ("apollo_get_email_accounts", None) tool_schemas
  /\ callTool decimal_text sdk_message
       (mock "/email_accounts"
          (Throw (RequestError (Some 401%Z) "Request failed with status code 401")))
       "apollo_get_email_accounts" VUndefined
     = Rejected
         {| code := InvalidRequest;
            message := "Invalid Apollo API key. "
                       ++ "Check your APOLLO_API_KEY environment variable." |}.
Proof.
  assert (Ht : In ("apollo_get_email_accounts", @None ZodSchema) tool_schemas)
    by (cbn; tauto).
  split; [exact Ht|].
  rewrite (remote_failure_is_classified decimal_text sdk_message
             (mock "/email_accounts"
                (Throw (RequestError (Some 401%Z)
                          "Request failed with status code 401")))
             "apollo_get_email_accounts" None VUndefined VUndefined
             {| method := GET; url := "/email_accounts"; data := VUndefined |}
             (RequestError (Some 401%Z) "Request failed with status code 401")
             Ht I eq_refl eq_refl).
  reflexivity.
Defined.

Lemma one_endpoint_witness :
  In ("apollo_enrich_organization", Some EnrichOrganizationSchema) tool_schemas
  /\ callTool decimal_text sdk_message
       (mock "/organizations/enrich" (Normal organization_response))
       "apollo_enrich_organization" (VObject [("domain", VString "apollo.io")])
     = callTool decimal_text sdk_message
         (fun _ => Normal organization_response)
         "apollo_enrich_organization" (VObject [("domain", VString "apollo.io")]).
Proof.
  assert (Ht : In ("apollo_enrich_organization", Some EnrichOrganizationSchema)
                  tool_schemas) by (cbn; tauto).
  split; [exact Ht|].
  exact (tool_calls_one_endpoint decimal_text sdk_message
           (mock "/organizations/enrich" (Normal organization_response))
           (fun _ => Normal organization_response)
           "apollo_enrich_organization" (Some EnrichOrganizationSchema)
           (VObject [("domain", VString "apollo.io")])
           (VObject [("domain", VString "apollo.io")])
           {| method := POST; url := "/organizations/enrich";
              data := VObject [("domain", VString "apollo.io")] |}
           Ht eq_refl eq_refl eq_refl).
Defined.

Lemma null_entry_witness :
  Exists (fun x => JS.nullish x = true) [touch "opened"; VNull]
  /\ exists text,
       callTool decimal_text sdk_message
         (mock "/emailer_messages/m1/activities"
            (Normal (VObject [("emailer_touches", VArray [touch "opened"; VNull])])))
         "apollo_get_email_message_activities" (VObject [("message_id", VString "m1")])
       = Rejected {| code := InternalError; message := text |}.
Proof.
  assert (H : Exists (fun x => JS.nullish x = true) [touch "opened"; VNull])
    by (right; left; reflexivity).
  split; [exact H|].
  destruct (null_entry_is_internal_error decimal_text sdk_message
              (mock "/emailer_messages/m1/activities"
                 (Normal (VObject [("emailer_touches",
                                    VArray [touch "opened"; VNull])])))
              (VObject [("message_id", VString "m1")])
              (VObject [("message_id", VString "m1")])
              (VObject [("emailer_touches", VArray [touch "opened"; VNull])])
              [touch "opened"; VNull]) as [_ E].
  destruct (E H) as [_ [_ E']].
  exact (E' eq_refl eq_refl eq_refl).
Defined.
